(** * VIP-Vanity: the vanity-claim command handler of [bot.go]

    A shallow embedding of [onCommand] (bot.go, lines 61-130) and of the
    library calls it makes, followed by the properties of the claim
    procedure: input validation, the ownership check against the key-value
    store, and the value write.

    Go strings are byte sequences: they are [String.string] here (a list of
    8-bit [ascii]).  A [snowflake.ID] is an unsigned 64-bit number on which
    the handler only tests equality and prints in decimal: it is an [N]. *)

From Stdlib Require Import String Ascii ZArith NArith List Bool Lia.
From Stdlib Require Import DecimalString DecimalN.
From stdpp Require Import gmap strings.
Import ListNotations.
Open Scope string_scope.

(** ** Results of fallible library calls: a value or an [error] (its text). *)

Inductive Result (A : Type) : Type :=
| Ok (a : A)
| Err (err : string).
Arguments Ok {A} a.
Arguments Err {A} err.

(** ** package strings *)

Module go_strings.

Definition RuneSelf : nat := 128.

Definition isUpperByte (c : ascii) : bool :=
  (nat_of_ascii "A" <=? nat_of_ascii c)%nat && (nat_of_ascii c <=? nat_of_ascii "Z")%nat.

(** [c += 'a' - 'A'] *)
Definition lowerByte (c : ascii) : ascii :=
  if isUpperByte c then ascii_of_nat (nat_of_ascii c + 32) else c.

Fixpoint isASCII (s : string) : bool :=
  match s with
  | EmptyString => true
  | String c s' => (nat_of_ascii c <? RuneSelf)%nat && isASCII s'
  end.

Fixpoint hasUpper (s : string) : bool :=
  match s with
  | EmptyString => false
  | String c s' => isUpperByte c || hasUpper s'
  end.

Fixpoint mapBytes (f : ascii -> ascii) (s : string) : string :=
  match s with
  | EmptyString => EmptyString
  | String c s' => String (f c) (mapBytes f s')
  end.

Section ToLower.

(** [strings.Map(unicode.ToLower, s)], the path [strings.ToLower] takes
    when [s] holds a byte outside ASCII.  The Unicode case tables are not
    part of the program: the mapping is a parameter. *)
Variable MapUnicodeToLower : string -> string.

(** [strings.ToLower]: ASCII-only strings are lowered byte by byte (and
    returned as they are when they hold no upper-case letter). *)
Definition ToLower (s : string) : string :=
  if isASCII s then
    if hasUpper s then mapBytes lowerByte s else s
  else MapUnicodeToLower s.

End ToLower.

End go_strings.

(** ** package regexp, for the patterns of the shape [^[class]+$] and
       [^[class]{min,max}$] *)

Module go_regexp.

Inductive ClassItem : Type :=
| Range (lo hi : ascii).          (* lo-hi inside [...] *)

Inductive Repeat : Type :=
| Plus                            (* +         *)
| Counted (min max : nat).        (* {min,max} *)

(** [^[class]rep$]: both anchors are part of every pattern used. *)
Record Regexp : Type := MustCompile { class : list ClassItem; rep : Repeat }.

Definition inItem (c : ascii) (i : ClassItem) : bool :=
  match i with
  | Range lo hi => (nat_of_ascii lo <=? nat_of_ascii c)%nat && (nat_of_ascii c <=? nat_of_ascii hi)%nat
  end.

Definition inClass (cl : list ClassItem) (c : ascii) : bool := existsb (inItem c) cl.

Fixpoint allInClass (cl : list ClassItem) (s : string) : bool :=
  match s with
  | EmptyString => true
  | String c s' => inClass cl c && allInClass cl s'
  end.

Definition countOK (r : Repeat) (n : nat) : bool :=
  match r with
  | Plus => (1 <=? n)%nat
  | Counted lo hi => (lo <=? n)%nat && (n <=? hi)%nat
  end.

(** The pattern is anchored at both ends and [$] (no [m] flag) is the end
    of the text: the whole string is a run of class bytes of an allowed
    length.  The classes are ASCII, so no byte of a multi-byte rune is in
    one. *)
Definition MatchString (re : Regexp) (s : string) : bool :=
  allInClass (class re) s && countOK (rep re) (String.length s).

End go_regexp.

(** ** package fmt, the verbs the handler uses *)

Module go_fmt.

Inductive Arg : Type :=
| ArgString (s : string)
| ArgID (id : N)                  (* a snowflake.ID: a uint64 with a String method *)
| ArgInt (i : Z)
| ArgError (err : string).

Definition decimalN (n : N) : string := NilEmpty.string_of_uint (N.to_uint n).
Definition decimalZ (z : Z) : string := NilZero.string_of_int (Z.to_int z).

(** One operand under one verb.  [%s] on a Stringer calls [String()] (a
    snowflake prints in decimal) and on an error its [Error()]; [%d] prints
    the integer itself.  The program never prints an operand under a verb
    that does not fit it: such a pair is rendered as a bare marker. *)
Definition formatArg (verb : ascii) (a : option Arg) : string :=
  match a with
  | None => "%!" ++ String verb "(MISSING)"
  | Some a =>
      if Ascii.eqb verb "s" then
        match a with
        | ArgString s => s
        | ArgID id => decimalN id
        | ArgError err => err
        | ArgInt _ => "%!" ++ String verb "(BADVERB)"
        end
      else if Ascii.eqb verb "d" then
        match a with
        | ArgID id => decimalN id
        | ArgInt i => decimalZ i
        | ArgString _ | ArgError _ => "%!" ++ String verb "(BADVERB)"
        end
      else "%!" ++ String verb "(BADVERB)"
  end.

Definition digitIndex (c : ascii) : nat := nat_of_ascii c - nat_of_ascii "0".

(** [%v] takes the next operand, [%[n]v] the n-th (and the next verb goes
    on from there).  The formats of this program use every operand, so
    the [%!(EXTRA ...)] suffix never arises. *)
Fixpoint doPrintf (format : string) (argNum : nat) (a : list Arg) : string :=
  match format with
  | EmptyString => EmptyString
  | String "%" (String "[" (String i (String "]" (String verb rest)))) =>
      formatArg verb (nth_error a (digitIndex i - 1)) ++ doPrintf rest (digitIndex i) a
  | String "%" (String verb rest) =>
      formatArg verb (nth_error a argNum) ++ doPrintf rest (S argNum) a
  | String c rest => String c (doPrintf rest argNum a)
  end.

Definition Sprintf (format : string) (a : list Arg) : string := doPrintf format 0 a.

End go_fmt.

(** ** package mime/multipart: the form fields written, in order *)

Module multipart.

Record Writer : Type := { boundary : string; fields : list (string * string) }.

Definition NewWriter (randomBoundary : string) : Writer :=
  {| boundary := randomBoundary; fields := [] |}.

Definition WriteField (w : Writer) (fieldname value : string) : Writer :=
  {| boundary := boundary w; fields := fields w ++ [(fieldname, value)] |}.

Definition FormDataContentType (w : Writer) : string :=
  "multipart/form-data; boundary=" ++ boundary w.

End multipart.

(** ** package net/http *)

Module http.

Definition MethodGet : string := "GET".
Definition MethodPut : string := "PUT".
Definition StatusOK : Z := 200.

Record Request : Type := {
  Method : string;
  URL : string;
  Header : list (string * string);
  Body : option multipart.Writer
}.

Definition Header_Add (r : Request) (key value : string) : Request :=
  {| Method := Method r; URL := URL r; Header := Header r ++ [(key, value)]; Body := Body r |}.

(** [httpguts.IsTokenRune]: the bytes a method name may hold. *)
Definition isTokenByte (c : ascii) : bool :=
  go_regexp.inClass [go_regexp.Range "a" "z"; go_regexp.Range "A" "Z"; go_regexp.Range "0" "9"] c
  || existsb (Ascii.eqb c) (list_ascii_of_string "!#$%&'*+-.^_`|~").

Definition validMethod (method : string) : bool :=
  (0 <? String.length method)%nat && forallb isTokenByte (list_ascii_of_string method).

Section NewRequest.
(** [url.Parse] as [http.NewRequest] uses it: [None] when the raw URL
    parses, the error otherwise.  The parser is not part of the program. *)
Variable url_Parse_error : string -> option string.

Definition NewRequest (method url : string) (body : option multipart.Writer) : Result Request :=
  let method := if String.eqb method "" then MethodGet else method in
  if negb (validMethod method) then Err "net/http: invalid method"
  else match url_Parse_error url with
       | Some err => Err err
       | None => Ok {| Method := method; URL := url; Header := []; Body := body |}
       end.
End NewRequest.

End http.

(** ** bot.go *)

Definition snowflake : Type := N.

(** [type MetadataResponse struct { Result struct { ID snowflake.ID } }] *)
Record MetadataResponse : Type := { Result_ID : snowflake }.

(** An HTTP response as the handler reads it: the status code, and what
    [json.NewDecoder(Body).Decode(&response)] yields on the body (the
    decoded [MetadataResponse], or the decoder's error). *)
Record Response : Type := {
  StatusCode : Z;
  Body_Decode : Result MetadataResponse
}.

(** [discord.MessageCreate], the two fields set. *)
Record MessageCreate : Type := { Content : string; Flags : Z }.

Definition MessageFlagEphemeral : Z := Z.shiftl 1 6.
Definition MessageFlagsNone : Z := 0.

(** The interaction event: the command's string options by name, and the
    invoking user's account id. *)
Record ApplicationCommandInteractionCreate : Type := {
  Options : gmap string string;
  User_ID : snowflake
}.

(** [data.String(name)]: the option's value, the empty string when absent. *)
Definition Data_String (event : ApplicationCommandInteractionCreate) (name : string) : string :=
  default "" (Options event !! name).

(** What the handler does to the outside, in the order it does it. *)
Inductive Effect : Type :=
| CreateMessage (m : MessageCreate)          (* event.CreateMessage: the immediate reply *)
| DeferCreateMessage (ephemeral : bool)      (* event.DeferCreateMessage: the acknowledgment *)
| CreateFollowupMessage (m : MessageCreate)  (* Rest().CreateFollowupMessage *)
| LogError (a : list go_fmt.Arg)             (* log.Error(a...) *)
| LogErrorf (format : string) (a : list go_fmt.Arg)
| LogWarnf (format : string) (a : list go_fmt.Arg).

(** The handler as a resumption: it returns, performs an effect whose
    result it drops, or sends a request and goes on with the client's
    answer. *)
Inductive Prog : Type :=
| Return
| Perform (e : Effect) (k : Prog)
| ClientDo (r : http.Request) (k : Result Response -> Prog).

Notation "'perform' e ';;' k" := (Perform e k)
  (at level 10, e at level 99, k at level 200, only parsing).

Definition metadataApiURL : string :=
  "https://api.cloudflare.com/client/v4/accounts/6dccc8a823380a32fe8792904b2cd886/storage/kv/namespaces/b44b93e4cc174443aca099a3763b29ff/metadata/".
Definition valuesApiURL : string :=
  "https://api.cloudflare.com/client/v4/accounts/6dccc8a823380a32fe8792904b2cd886/storage/kv/namespaces/b44b93e4cc174443aca099a3763b29ff/values/".

(** [^[a-f0-9]+$] *)
Definition publicIDRegex : go_regexp.Regexp :=
  go_regexp.MustCompile [go_regexp.Range "a" "f"; go_regexp.Range "0" "9"] go_regexp.Plus.
(** [^[a-zA-Z0-9]+$] *)
Definition vanityRegex : go_regexp.Regexp :=
  go_regexp.MustCompile
    [go_regexp.Range "a" "z"; go_regexp.Range "A" "Z"; go_regexp.Range "0" "9"] go_regexp.Plus.

(** The double quote, and the format [{"id":"%s"}] of the metadata field. *)
Definition dquote : string := String "034" EmptyString.
Definition metadataFormat : string :=
  "{" ++ dquote ++ "id" ++ dquote ++ ":" ++ dquote ++ "%s" ++ dquote ++ "}".

(** [createFollowup(event, s, a...)], then the rest [k] of the caller. *)
Definition createFollowup (s : string) (a : list go_fmt.Arg) (k : Prog) : Prog :=
  perform CreateFollowupMessage {| Content := go_fmt.Sprintf s a; Flags := MessageFlagsNone |};;
  k.

Section Bot.

(** The process's surroundings: the token read from the environment at
    start-up, the two library functions left as parameters, and the
    boundary [multipart.NewWriter] draws at random. *)
Variable cfApiToken : string.
Variable MapUnicodeToLower : string -> string.
Variable url_Parse_error : string -> option string.
Variable randomBoundary : string.

Definition ToLower : string -> string := go_strings.ToLower MapUnicodeToLower.
Definition NewRequest : string -> string -> option multipart.Writer -> Result http.Request :=
  http.NewRequest url_Parse_error.

(** Lines 107-129: the value write, reached when the alias is free or the
    requester's own. *)
Definition onCommand_write (pubUserID vanity : string) (userID : snowflake) : Prog :=
  let w := multipart.NewWriter randomBoundary in
  let w := multipart.WriteField w "value" pubUserID in
  let w := multipart.WriteField w "metadata" (go_fmt.Sprintf metadataFormat [go_fmt.ArgID userID]) in
  match NewRequest http.MethodPut (valuesApiURL ++ vanity) (Some w) with
  | Err err =>
      perform LogError [go_fmt.ArgString "there was an error while creating a new value request: ";
                        go_fmt.ArgError err];;
      Return
  | Ok valueRequest =>
      let valueRequest := http.Header_Add valueRequest "Authorization" cfApiToken in
      let valueRequest :=
        http.Header_Add valueRequest "Content-Type" (multipart.FormDataContentType w) in
      ClientDo valueRequest (fun valueRs =>
        match valueRs with
        | Err err =>
            perform LogError [go_fmt.ArgString "there was an error while running a value request: ";
                              go_fmt.ArgError err];;
            Return
        | Ok valueRs =>
            let code := StatusCode valueRs in
            if (code =? http.StatusOK)%Z then
              createFollowup
                "Vanity `%s` associated with user id [`%s`](https://sb.ltn.fi/userid/%[2]s) has been successfully added."
                [go_fmt.ArgString vanity; go_fmt.ArgString pubUserID] Return
            else
              perform LogWarnf "received code %d after running a value request" [go_fmt.ArgInt code];;
              Return
        end)
  end.

(** Lines 61-106, and [onCommand_write] for the rest. *)
Definition onCommand (event : ApplicationCommandInteractionCreate) : Prog :=
  let pubUserID := Data_String event "sb_user_id" in
  if negb (go_regexp.MatchString publicIDRegex pubUserID) then
    perform CreateMessage {| Content := "Provided user id is not a valid public user id.";
                             Flags := MessageFlagEphemeral |};;
    Return
  else
  let vanity := ToLower (Data_String event "vanity") in
  if negb (go_regexp.MatchString vanityRegex vanity) then
    perform CreateMessage
      {| Content := "Provided vanity is not in a valid format. Use letters and numbers only up to 32 characters.";
         Flags := MessageFlagEphemeral |};;
    Return
  else
  perform DeferCreateMessage true;;
  match NewRequest http.MethodGet (metadataApiURL ++ vanity) None with
  | Err err =>
      perform LogError [go_fmt.ArgString "there was an error while creating a new metadata request: ";
                        go_fmt.ArgError err];;
      Return
  | Ok metaRequest =>
      let metaRequest := http.Header_Add metaRequest "Authorization" cfApiToken in
      ClientDo metaRequest (fun metaRs =>
        match metaRs with
        | Err err =>
            perform LogError [go_fmt.ArgString "there was an error while running a metadata request: ";
                              go_fmt.ArgError err];;
            Return
        | Ok metaRs =>
            let userID := User_ID event in
            if (StatusCode metaRs =? http.StatusOK)%Z then
              match Body_Decode metaRs with
              | Err err =>
                  perform LogErrorf "there was an error while decoding the metadata response (%d): "
                            [go_fmt.ArgInt (StatusCode metaRs); go_fmt.ArgError err];;
                  Return
              | Ok response =>
                  let ownerID := Result_ID response in
                  if negb (ownerID =? userID)%N then
                    createFollowup "This vanity is already taken by <@%d>." [go_fmt.ArgID ownerID] Return
                  else onCommand_write pubUserID vanity userID
              end
            else onCommand_write pubUserID vanity userID
        end)
  end.

End Bot.

(** ** Running the handler against the outside world *)

(** What an observer sees of one run: the effects, and each request with
    the answer the client returned for it. *)
Inductive Event : Type :=
| EvEffect (e : Effect)
| EvDo (r : http.Request) (res : Result Response).

(** The world answers a request from its state and moves to a new one. *)
Definition World (S : Type) : Type := http.Request -> S -> Result Response * S.

Fixpoint run {S : Type} (world : World S) (p : Prog) (s : S) : list Event * S :=
  match p with
  | Return => ([], s)
  | Perform e k => let '(t, s') := run world k s in (EvEffect e :: t, s')
  | ClientDo r k =>
      let '(res, s1) := world r s in
      let '(t, s2) := run world (k res) s1 in
      (EvDo r res :: t, s2)
  end.

(** *** Reading a trace *)

Definition isGet (r : http.Request) : bool := String.eqb (http.Method r) http.MethodGet.
Definition isPut (r : http.Request) : bool := String.eqb (http.Method r) http.MethodPut.

(** The requests sent, in order. *)
Fixpoint requests (t : list Event) : list http.Request :=
  match t with
  | [] => []
  | EvDo r _ :: t' => r :: requests t'
  | EvEffect _ :: t' => requests t'
  end.

(** The value writes among them. *)
Definition writes (t : list Event) : list http.Request := List.filter isPut (requests t).

(** The messages the user gets: the immediate reply and the follow-ups. *)
Fixpoint messages (t : list Event) : list string :=
  match t with
  | [] => []
  | EvEffect (CreateMessage m) :: t' => Content m :: messages t'
  | EvEffect (CreateFollowupMessage m) :: t' => Content m :: messages t'
  | _ :: t' => messages t'
  end.

(** The follow-up messages alone. *)
Fixpoint followups (t : list Event) : list string :=
  match t with
  | [] => []
  | EvEffect (CreateFollowupMessage m) :: t' => Content m :: followups t'
  | _ :: t' => followups t'
  end.

(** The three network-involving steps of a command. *)
Inductive Step : Type := Acknowledge | MetadataRead | ValueWrite | OtherRequest.

Fixpoint steps (t : list Event) : list Step :=
  match t with
  | [] => []
  | EvEffect (DeferCreateMessage _) :: t' => Acknowledge :: steps t'
  | EvDo r _ :: t' =>
      (if isGet r then MetadataRead else if isPut r then ValueWrite else OtherRequest) :: steps t'
  | EvEffect _ :: t' => steps t'
  end.

(** Log entries. *)
Definition isLog (e : Event) : bool :=
  match e with
  | EvEffect (LogError _) | EvEffect (LogErrorf _ _) | EvEffect (LogWarnf _ _) => true
  | _ => false
  end.

(** ** The formats of the specification, to compare the code with *)

(** [^[0-9a-f]+$], the public user id of the specification. *)
Definition specPublicIDPattern : go_regexp.Regexp :=
  go_regexp.MustCompile [go_regexp.Range "0" "9"; go_regexp.Range "a" "f"] go_regexp.Plus.

(** [^[0-9a-zA-Z]{1,32}$], the alias of the specification. *)
Definition specVanityPattern : go_regexp.Regexp :=
  go_regexp.MustCompile
    [go_regexp.Range "0" "9"; go_regexp.Range "a" "z"; go_regexp.Range "A" "Z"]
    (go_regexp.Counted 1 32).

(** The same two formats in words: one or more lower-case hex digits; one
    to thirty-two ASCII letters and digits. *)
Definition lowerHexDigits : list ascii := list_ascii_of_string "0123456789abcdef".
Definition alphanumerics : list ascii :=
  list_ascii_of_string "0123456789abcdefghijklmnopqrstuvwxyzABCDEFGHIJKLMNOPQRSTUVWXYZ".
Definition lowerAlphanumerics : list ascii :=
  list_ascii_of_string "0123456789abcdefghijklmnopqrstuvwxyz".

Definition isPublicID (s : string) : Prop :=
  s <> "" /\ Forall (fun c => In c lowerHexDigits) (list_ascii_of_string s).

Definition isAlias (s : string) : Prop :=
  (1 <= String.length s <= 32)%nat /\ Forall (fun c => In c alphanumerics) (list_ascii_of_string s).






(** ** The key-value store, as its two endpoints behave

    The store is not part of the program.  This is the store the
    specification describes (section 6): a metadata read answers 200 with
    the owner recorded for the key, or 404 when the key is absent; a value
    write records the [value] and [metadata] fields under the key and
    answers 200. *)

Module kv.

Fixpoint stripPrefix (prefix s : string) : option string :=
  match prefix, s with
  | EmptyString, _ => Some s
  | String p prefix', String c s' => if Ascii.eqb p c then stripPrefix prefix' s' else None
  | String _ _, EmptyString => None
  end.

Fixpoint field (name : string) (fields : list (string * string)) : option string :=
  match fields with
  | [] => None
  | (k, v) :: fields' => if String.eqb k name then Some v else field name fields'
  end.

(** The owner named by a stored metadata text.  The store of this model
    reads back the one format the handler writes, [{"id":"<decimal>"}],
    byte for byte; any other text (spaces, further fields, [null]) is
    answered as a body that does not decode.  It is not the JSON decoder:
    the properties that depend on what it answers apply it to text the
    handler wrote, where the two agree. *)
Definition decodeMetadata (metadata : string) : Result MetadataResponse :=
  match stripPrefix ("{" ++ dquote ++ "id" ++ dquote ++ ":" ++ dquote) metadata with
  | None => Err "json: cannot unmarshal"
  | Some rest =>
      match NilEmpty.uint_of_string (substring 0 (String.length rest - 2) rest) with
      | Some d =>
          if String.eqb (substring (String.length rest - 2) 2 rest) (dquote ++ "}")
          then Ok {| Result_ID := N.of_uint d |}
          else Err "json: cannot unmarshal"
      | None => Err "failed to parse snowflake as uint64"
      end
  end.

(** A stored record: the value and the metadata text. *)
Abbreviation Store := (gmap string (string * string)).

Definition notFound : Response := {| StatusCode := 404; Body_Decode := Err "EOF" |}.
Definition badRequest : Response := {| StatusCode := 400; Body_Decode := Err "EOF" |}.

Definition store : World Store := fun r st =>
  if isGet r then
    match stripPrefix metadataApiURL (http.URL r) with
    | None => (Ok badRequest, st)
    | Some key =>
        match st !! key with
        | None => (Ok notFound, st)
        | Some (_, metadata) =>
            (Ok {| StatusCode := 200; Body_Decode := decodeMetadata metadata |}, st)
        end
    end
  else if isPut r then
    match stripPrefix valuesApiURL (http.URL r), http.Body r with
    | Some key, Some w =>
        match field "value" (multipart.fields w), field "metadata" (multipart.fields w) with
        | Some value, Some metadata =>
            (Ok {| StatusCode := 200; Body_Decode := Err "EOF" |}, <[key := (value, metadata)]> st)
        | _, _ => (Ok badRequest, st)
        end
    | _, _ => (Ok badRequest, st)
    end
  else (Ok badRequest, st).

(** The same store when reads lag behind: a read is answered from an
    older state [seen] of the store, a write lands on the state [live] the
    store is in by then (another command wrote in between). *)
Definition lagging : World (Store * Store) := fun r '(seen, live) =>
  if isGet r then (fst (store r seen), (seen, live))
  else let '(res, live') := store r live in (res, (seen, live')).

End kv.

(** The answers the value writes got, in order. *)
Fixpoint writeAnswers (t : list Event) : list (Result Response) :=
  match t with
  | [] => []
  | EvDo r res :: t' => if isPut r then res :: writeAnswers t' else writeAnswers t'
  | EvEffect _ :: t' => writeAnswers t'
  end.

(** The log entries. *)
Definition logs (t : list Event) : list Event := List.filter isLog t.

(** A run up to the point where the value write leaves: the events before
    it as they are, and of the write itself only that it is sent and where
    to (its body and everything after it are dropped). *)
Fixpoint decision (t : list Event) : list Event :=
  match t with
  | [] => []
  | EvDo r res :: t' =>
      if isPut r
      then [EvDo {| http.Method := http.Method r; http.URL := http.URL r;
                    http.Header := http.Header r; http.Body := None |} (Err "")]
      else EvDo r res :: decision t'
  | EvEffect e :: t' => EvEffect e :: decision t'
  end.

(** The branch a run took after validation. *)
Inductive Branch : Type := BranchRejected | BranchConflict | BranchWrite | BranchAbandon.

Definition branch (t : list Event) : Branch :=
  match steps t with
  | [] => BranchRejected
  | _ =>
      match writes t, followups t with
      | _ :: _, _ => BranchWrite
      | [], _ :: _ => BranchConflict
      | [], [] => BranchAbandon
      end
  end.

(** The same invocation with one option given another value. *)
Definition withOption (event : ApplicationCommandInteractionCreate) (name value : string)
  : ApplicationCommandInteractionCreate :=
  {| Options := <[name := value]> (Options event); User_ID := User_ID event |}.

(** ** Concrete surroundings, for the examples *)

Module Sample.

Definition token : string := "Bearer secret".
Definition boundary : string := "f3a1".
(** Every raw URL parses. *)
Definition parses : string -> option string := fun _ => None.
(** The examples' aliases are ASCII: the Unicode path is never taken. *)
Definition noUnicode : string -> string := fun s => s.

Definition handler : ApplicationCommandInteractionCreate -> Prog :=
  onCommand token noUnicode parses boundary.

Definition command (pubUserID vanity : string) (userID : snowflake)
  : ApplicationCommandInteractionCreate :=
  {| Options := <["sb_user_id" := pubUserID]> (<["vanity" := vanity]> ∅); User_ID := userID |}.

(** A world without state that answers the metadata read with [meta] and
    the value write with [put]. *)
Definition answering (meta put : Result Response) : World unit :=
  fun r s => (if isGet r then meta else put, s).

Definition status (code : Z) : Result Response :=
  Ok {| StatusCode := code; Body_Decode := Err "EOF" |}.
Definition ownedBy (ownerID : snowflake) : Result Response :=
  Ok {| StatusCode := 200; Body_Decode := Ok {| Result_ID := ownerID |} |}.

Definition longAlias : string := "aaaaaaaaaaaaaaaaaaaaaaaaaaaaaaaaa".

(** One run of the handler on the command given. *)
Definition claim {S : Type} (world : World S) (pubUserID vanity : string) (userID : snowflake)
    (s : S) : list Event * S :=
  run world (handler (command pubUserID vanity userID)) s.

End Sample.

(** ** The paths through the handler *)

Section Paths.

Variable cfApiToken : string.
Variable MapUnicodeToLower : string -> string.
Variable url_Parse_error : string -> option string.
Variable randomBoundary : string.

Abbreviation handler := (onCommand cfApiToken MapUnicodeToLower url_Parse_error randomBoundary).
Abbreviation writer := (onCommand_write cfApiToken url_Parse_error randomBoundary).
Abbreviation lower := (ToLower MapUnicodeToLower).

(** The alias as the handler uses it, and the two user inputs as given. *)
Definition pubUserIDOf (event : ApplicationCommandInteractionCreate) : string :=
  Data_String event "sb_user_id".
Definition vanityOf (event : ApplicationCommandInteractionCreate) : string :=
  lower (Data_String event "vanity").

(** The metadata read for an alias. *)
Definition metaRequest (vanity : string) : http.Request :=
  {| http.Method := "GET";
     http.URL := metadataApiURL ++ vanity;
     http.Header := [("Authorization", cfApiToken)];
     http.Body := None |}.

(** The metadata field [{"id":"<requesterID>"}]. *)
Definition ownerMetadata (userID : snowflake) : string :=
  "{" ++ dquote ++ "id" ++ dquote ++ ":" ++ dquote ++ go_fmt.decimalN userID ++ dquote ++ "}".

(** The value write for an alias, a public id and a requester. *)
Definition valueRequest (pubUserID vanity : string) (userID : snowflake) : http.Request :=
  {| http.Method := "PUT";
     http.URL := valuesApiURL ++ vanity;
     http.Header := [("Authorization", cfApiToken);
                     ("Content-Type", "multipart/form-data; boundary=" ++ randomBoundary)];
     http.Body := Some {| multipart.boundary := randomBoundary;
                          multipart.fields := [("value", pubUserID);
                                               ("metadata", ownerMetadata userID)] |} |}.

Definition invalidUserIDReply : Event :=
  EvEffect (CreateMessage {| Content := "Provided user id is not a valid public user id.";
                             Flags := MessageFlagEphemeral |}).
Definition invalidVanityReply : Event :=
  EvEffect (CreateMessage
    {| Content := "Provided vanity is not in a valid format. Use letters and numbers only up to 32 characters.";
       Flags := MessageFlagEphemeral |}).
Definition acknowledgment : Event := EvEffect (DeferCreateMessage true).

Definition takenMessage (ownerID : snowflake) : string :=
  "This vanity is already taken by <@" ++ go_fmt.decimalN ownerID ++ ">.".
Definition successMessage (vanity pubUserID : string) : string :=
  "Vanity `" ++ vanity ++ "` associated with user id [`" ++ pubUserID
  ++ "`](https://sb.ltn.fi/userid/" ++ pubUserID ++ ") has been successfully added.".
Definition followup (content : string) : Event :=
  EvEffect (CreateFollowupMessage {| Content := content; Flags := MessageFlagsNone |}).

Section Outcomes.

Context {S : Type} (world : World S).

(** The four ends of the write step (lines 107-129), from state [s]. *)
Inductive WriteOutcome (pubUserID vanity : string) (userID : snowflake) (s : S)
  : list Event -> S -> Prop :=
| ValueRequestError err :
    url_Parse_error (valuesApiURL ++ vanity) = Some err ->
    WriteOutcome pubUserID vanity userID s
      [EvEffect (LogError [go_fmt.ArgString "there was an error while creating a new value request: ";
                           go_fmt.ArgError err])] s
| ValueDoError err s1 :
    url_Parse_error (valuesApiURL ++ vanity) = None ->
    world (valueRequest pubUserID vanity userID) s = (Err err, s1) ->
    WriteOutcome pubUserID vanity userID s
      [EvDo (valueRequest pubUserID vanity userID) (Err err);
       EvEffect (LogError [go_fmt.ArgString "there was an error while running a value request: ";
                           go_fmt.ArgError err])] s1
| Claimed valueRs s1 :
    url_Parse_error (valuesApiURL ++ vanity) = None ->
    world (valueRequest pubUserID vanity userID) s = (Ok valueRs, s1) ->
    StatusCode valueRs = 200%Z ->
    WriteOutcome pubUserID vanity userID s
      [EvDo (valueRequest pubUserID vanity userID) (Ok valueRs);
       followup (successMessage vanity pubUserID)] s1
| ClaimFailed valueRs s1 :
    url_Parse_error (valuesApiURL ++ vanity) = None ->
    world (valueRequest pubUserID vanity userID) s = (Ok valueRs, s1) ->
    StatusCode valueRs <> 200%Z ->
    WriteOutcome pubUserID vanity userID s
      [EvDo (valueRequest pubUserID vanity userID) (Ok valueRs);
       EvEffect (LogWarnf "received code %d after running a value request"
                          [go_fmt.ArgInt (StatusCode valueRs)])] s1.

(** The ends of the whole handler, from state [s]. *)
Inductive Outcome (event : ApplicationCommandInteractionCreate) (s : S)
  : list Event -> S -> Prop :=
| RejectedUserID :
    go_regexp.MatchString publicIDRegex (pubUserIDOf event) = false ->
    Outcome event s [invalidUserIDReply] s
| RejectedVanity :
    go_regexp.MatchString publicIDRegex (pubUserIDOf event) = true ->
    go_regexp.MatchString vanityRegex (vanityOf event) = false ->
    Outcome event s [invalidVanityReply] s
| MetaRequestError err :
    go_regexp.MatchString publicIDRegex (pubUserIDOf event) = true ->
    go_regexp.MatchString vanityRegex (vanityOf event) = true ->
    url_Parse_error (metadataApiURL ++ vanityOf event) = Some err ->
    Outcome event s
      [acknowledgment;
       EvEffect (LogError [go_fmt.ArgString "there was an error while creating a new metadata request: ";
                           go_fmt.ArgError err])] s
| MetaDoError err s1 :
    go_regexp.MatchString publicIDRegex (pubUserIDOf event) = true ->
    go_regexp.MatchString vanityRegex (vanityOf event) = true ->
    url_Parse_error (metadataApiURL ++ vanityOf event) = None ->
    world (metaRequest (vanityOf event)) s = (Err err, s1) ->
    Outcome event s
      [acknowledgment; EvDo (metaRequest (vanityOf event)) (Err err);
       EvEffect (LogError [go_fmt.ArgString "there was an error while running a metadata request: ";
                           go_fmt.ArgError err])] s1
| MetaDecodeError metaRs err s1 :
    go_regexp.MatchString publicIDRegex (pubUserIDOf event) = true ->
    go_regexp.MatchString vanityRegex (vanityOf event) = true ->
    url_Parse_error (metadataApiURL ++ vanityOf event) = None ->
    world (metaRequest (vanityOf event)) s = (Ok metaRs, s1) ->
    StatusCode metaRs = 200%Z ->
    Body_Decode metaRs = Err err ->
    Outcome event s
      [acknowledgment; EvDo (metaRequest (vanityOf event)) (Ok metaRs);
       EvEffect (LogErrorf "there was an error while decoding the metadata response (%d): "
                           [go_fmt.ArgInt (StatusCode metaRs); go_fmt.ArgError err])] s1
| Conflict metaRs response s1 :
    go_regexp.MatchString publicIDRegex (pubUserIDOf event) = true ->
    go_regexp.MatchString vanityRegex (vanityOf event) = true ->
    url_Parse_error (metadataApiURL ++ vanityOf event) = None ->
    world (metaRequest (vanityOf event)) s = (Ok metaRs, s1) ->
    StatusCode metaRs = 200%Z ->
    Body_Decode metaRs = Ok response ->
    Result_ID response <> User_ID event ->
    Outcome event s
      [acknowledgment; EvDo (metaRequest (vanityOf event)) (Ok metaRs);
       followup (takenMessage (Result_ID response))] s1
| OwnAlias metaRs response s1 t s2 :
    go_regexp.MatchString publicIDRegex (pubUserIDOf event) = true ->
    go_regexp.MatchString vanityRegex (vanityOf event) = true ->
    url_Parse_error (metadataApiURL ++ vanityOf event) = None ->
    world (metaRequest (vanityOf event)) s = (Ok metaRs, s1) ->
    StatusCode metaRs = 200%Z ->
    Body_Decode metaRs = Ok response ->
    Result_ID response = User_ID event ->
    WriteOutcome (pubUserIDOf event) (vanityOf event) (User_ID event) s1 t s2 ->
    Outcome event s
      (acknowledgment :: EvDo (metaRequest (vanityOf event)) (Ok metaRs) :: t) s2
| Unclaimed metaRs s1 t s2 :
    go_regexp.MatchString publicIDRegex (pubUserIDOf event) = true ->
    go_regexp.MatchString vanityRegex (vanityOf event) = true ->
    url_Parse_error (metadataApiURL ++ vanityOf event) = None ->
    world (metaRequest (vanityOf event)) s = (Ok metaRs, s1) ->
    StatusCode metaRs <> 200%Z ->
    WriteOutcome (pubUserIDOf event) (vanityOf event) (User_ID event) s1 t s2 ->
    Outcome event s
      (acknowledgment :: EvDo (metaRequest (vanityOf event)) (Ok metaRs) :: t) s2.

End Outcomes.

(** *** The library calls on the handler's inputs *)

Lemma NewRequest_GET url :
  NewRequest url_Parse_error http.MethodGet url None =
  match url_Parse_error url with
  | Some err => Err err
  | None => Ok {| http.Method := "GET"; http.URL := url; http.Header := []; http.Body := None |}
  end.
Proof. reflexivity. Qed.

Lemma NewRequest_PUT url w :
  NewRequest url_Parse_error http.MethodPut url (Some w) =
  match url_Parse_error url with
  | Some err => Err err
  | None => Ok {| http.Method := "PUT"; http.URL := url; http.Header := []; http.Body := Some w |}
  end.
Proof. reflexivity. Qed.

Lemma Sprintf_metadata userID :
  go_fmt.Sprintf metadataFormat [go_fmt.ArgID userID] = ownerMetadata userID.
Proof. reflexivity. Qed.

Lemma Sprintf_taken ownerID :
  go_fmt.Sprintf "This vanity is already taken by <@%d>." [go_fmt.ArgID ownerID]
  = takenMessage ownerID.
Proof. reflexivity. Qed.

Lemma createFollowup_success vanity pubUserID k :
  createFollowup
    "Vanity `%s` associated with user id [`%s`](https://sb.ltn.fi/userid/%[2]s) has been successfully added."
    [go_fmt.ArgString vanity; go_fmt.ArgString pubUserID] k
  = Perform (CreateFollowupMessage {| Content := successMessage vanity pubUserID; Flags := 0 |}) k.
Proof. reflexivity. Qed.

Lemma createFollowup_taken ownerID k :
  createFollowup "This vanity is already taken by <@%d>." [go_fmt.ArgID ownerID] k
  = Perform (CreateFollowupMessage {| Content := takenMessage ownerID; Flags := 0 |}) k.
Proof. reflexivity. Qed.

Lemma Sprintf_success vanity pubUserID :
  go_fmt.Sprintf
    "Vanity `%s` associated with user id [`%s`](https://sb.ltn.fi/userid/%[2]s) has been successfully added."
    [go_fmt.ArgString vanity; go_fmt.ArgString pubUserID]
  = successMessage vanity pubUserID.
Proof. reflexivity. Qed.

(** *** Every run ends in one of the outcomes *)

Lemma run_ClientDo {S : Type} (world : World S) r k s :
  run world (ClientDo r k) s =
  (EvDo r (fst (world r s)) :: fst (run world (k (fst (world r s))) (snd (world r s))),
   snd (run world (k (fst (world r s))) (snd (world r s)))).
Proof.
  simpl. destruct (world r s) as [res s1]. simpl.
  destruct (run world (k res) s1); reflexivity.
Qed.

Lemma run_writer {S : Type} (world : World S) pubUserID vanity userID s :
  WriteOutcome world pubUserID vanity userID s
    (fst (run world (writer pubUserID vanity userID) s))
    (snd (run world (writer pubUserID vanity userID) s)).
Proof.
  unfold onCommand_write. cbv zeta. rewrite NewRequest_PUT.
  destruct (url_Parse_error (valuesApiURL ++ vanity)) as [err|] eqn:Hurl.
  - apply ValueRequestError; assumption.
  - change (http.Header_Add _ _ _) with (valueRequest pubUserID vanity userID).
    rewrite run_ClientDo.
    destruct (world (valueRequest pubUserID vanity userID) s) as [[valueRs|err] s1] eqn:Hdo;
      cbn [fst snd].
    + destruct (StatusCode valueRs =? http.StatusOK)%Z eqn:Hcode.
      * apply Z.eqb_eq in Hcode. rewrite createFollowup_success. now apply Claimed.
      * apply Z.eqb_neq in Hcode. now apply ClaimFailed.
    + now apply ValueDoError.
Qed.

Lemma run_handler {S : Type} (world : World S) event s :
  Outcome world event s (fst (run world (handler event) s)) (snd (run world (handler event) s)).
Proof.
  unfold onCommand. cbv zeta.
  fold (pubUserIDOf event). fold (vanityOf event).
  destruct (go_regexp.MatchString publicIDRegex (pubUserIDOf event)) eqn:Hid;
    [|now apply RejectedUserID].
  destruct (go_regexp.MatchString vanityRegex (vanityOf event)) eqn:Hvanity;
    [|now apply RejectedVanity].
  cbn [negb]. rewrite NewRequest_GET.
  destruct (url_Parse_error (metadataApiURL ++ vanityOf event)) as [err|] eqn:Hurl;
    [now apply MetaRequestError|].
  change (http.Header_Add _ _ _) with (metaRequest (vanityOf event)).
  change (run world (Perform ?e ?k) s)
    with (let '(t, s') := run world k s in (EvEffect e :: t, s')).
  rewrite run_ClientDo.
  destruct (world (metaRequest (vanityOf event)) s) as [[metaRs|err] s1] eqn:Hdo;
    cbn [fst snd]; [|now apply MetaDoError].
  destruct (StatusCode metaRs =? http.StatusOK)%Z eqn:Hcode.
  - apply Z.eqb_eq in Hcode.
    destruct (Body_Decode metaRs) as [response|err] eqn:Hbody;
      [|now eapply MetaDecodeError].
    destruct (Result_ID response =? User_ID event)%N eqn:Howner; cbn [negb].
    + apply N.eqb_eq in Howner.
      eapply OwnAlias; eauto using run_writer.
    + apply N.eqb_neq in Howner. rewrite createFollowup_taken. now eapply Conflict.
  - apply Z.eqb_neq in Hcode.
    eapply Unclaimed; eauto using run_writer.
Qed.

(** From a run to its outcome: the trace and final state are named, and
    the outcome they satisfy is split into its cases. *)
Ltac invert_outcomes :=
  repeat match goal with
         | H : Outcome _ _ _ _ _ |- _ => inversion H; clear H
         end;
  subst;
  repeat match goal with
         | H : WriteOutcome _ _ _ _ _ _ _ |- _ => inversion H; clear H; subst
         end.

Ltac outcomes world event s t s' :=
  let H := fresh "Hout" in
  pose proof (run_handler world event s) as H;
  destruct (run world (handler event) s) as [t s'];
  cbn [fst snd] in H |- *;
  invert_outcomes.

(** *** The two patterns, byte by byte *)

Lemma existsb_eqb_In (c : ascii) (l : list ascii) :
  existsb (Ascii.eqb c) l = true <-> In c l.
Proof.
  rewrite existsb_exists. split.
  - intros (x & Hin & Heq). apply Ascii.eqb_eq in Heq. now subst.
  - intros Hin. exists c. split; [assumption | apply Ascii.eqb_refl].
Qed.

Lemma allInClass_Forall (cl : list go_regexp.ClassItem) (l : list ascii) :
  (forall c, go_regexp.inClass cl c = existsb (Ascii.eqb c) l) ->
  forall s, go_regexp.allInClass cl s = true
            <-> Forall (fun c => In c l) (list_ascii_of_string s).
Proof.
  intros Hcl s. induction s as [|c s IH]; simpl.
  - split; [constructor | reflexivity].
  - rewrite andb_true_iff, Forall_cons_iff, IH, Hcl, existsb_eqb_In. reflexivity.
Qed.

Lemma inClass_publicID c :
  go_regexp.inClass (go_regexp.class publicIDRegex) c = existsb (Ascii.eqb c) lowerHexDigits.
Proof. destruct c as [[] [] [] [] [] [] [] []]; reflexivity. Qed.

Lemma inClass_vanity c :
  go_regexp.inClass (go_regexp.class vanityRegex) c = existsb (Ascii.eqb c) alphanumerics.
Proof. destruct c as [[] [] [] [] [] [] [] []]; reflexivity. Qed.

Lemma length_pos_nonempty (s : string) : (1 <=? String.length s)%nat = true <-> s <> "".
Proof.
  destruct s; simpl; split; congruence.
Qed.

(** The code's [publicIDRegex] accepts exactly the public ids. *)
Lemma MatchString_publicID s :
  go_regexp.MatchString publicIDRegex s = true <-> isPublicID s.
Proof.
  unfold go_regexp.MatchString, isPublicID.
  rewrite andb_true_iff, (allInClass_Forall _ lowerHexDigits inClass_publicID).
  change (go_regexp.countOK _ _) with (1 <=? String.length s)%nat.
  rewrite length_pos_nonempty. apply and_comm.
Qed.

Lemma inClass_specVanity c :
  go_regexp.inClass (go_regexp.class specVanityPattern) c = existsb (Ascii.eqb c) alphanumerics.
Proof. destruct c as [[] [] [] [] [] [] [] []]; reflexivity. Qed.

(** The specification's alias pattern accepts exactly the aliases. *)
Lemma MatchString_specVanity s :
  go_regexp.MatchString specVanityPattern s = true <-> isAlias s.
Proof.
  unfold go_regexp.MatchString, isAlias.
  rewrite andb_true_iff, (allInClass_Forall _ alphanumerics inClass_specVanity).
  change (go_regexp.countOK _ _)
    with ((1 <=? String.length s)%nat && (String.length s <=? 32)%nat).
  rewrite andb_true_iff, !Nat.leb_le. apply and_comm.
Qed.

(** The code's [vanityRegex] accepts the runs of letters and digits of any
    length from one on. *)
Lemma MatchString_vanity s :
  go_regexp.MatchString vanityRegex s = true
  <-> s <> "" /\ Forall (fun c => In c alphanumerics) (list_ascii_of_string s).
Proof.
  unfold go_regexp.MatchString.
  rewrite andb_true_iff, (allInClass_Forall _ alphanumerics inClass_vanity).
  change (go_regexp.countOK _ _) with (1 <=? String.length s)%nat.
  rewrite length_pos_nonempty. apply and_comm.
Qed.

(** *** The store's answers to the handler's two requests *)

Lemma stripPrefix_app (p s : string) : kv.stripPrefix p (p ++ s) = Some s.
Proof. induction p as [|c p IH]; simpl; [reflexivity | now rewrite Ascii.eqb_refl]. Qed.

Lemma length_append (a b : string) :
  String.length (a ++ b) = (String.length a + String.length b)%nat.
Proof. induction a as [|c a IH]; simpl; [reflexivity | now rewrite IH]. Qed.

Lemma substring_all (a : string) : substring 0 (String.length a) a = a.
Proof. induction a as [|c a IH]; simpl; [reflexivity | now rewrite IH]. Qed.

Lemma substring_left (a b : string) : substring 0 (String.length a) (a ++ b) = a.
Proof.
  induction a as [|c a IH]; simpl; [now destruct b | now rewrite IH].
Qed.

Lemma substring_right (a b : string) :
  substring (String.length a) (String.length b) (a ++ b) = b.
Proof. induction a as [|c a IH]; simpl; [apply substring_all | exact IH]. Qed.

(** The store reads back the owner the handler wrote. *)
Lemma decodeMetadata_ownerMetadata (userID : snowflake) :
  kv.decodeMetadata (ownerMetadata userID) = Ok {| Result_ID := userID |}.
Proof.
  unfold kv.decodeMetadata, ownerMetadata.
  change (kv.stripPrefix _ _)
    with (kv.stripPrefix ("{" ++ dquote ++ "id" ++ dquote ++ ":" ++ dquote)
            (("{" ++ dquote ++ "id" ++ dquote ++ ":" ++ dquote)
             ++ (go_fmt.decimalN userID ++ (dquote ++ "}")))).
  rewrite stripPrefix_app, length_append.
  change (String.length (dquote ++ "}")) with 2%nat.
  replace (String.length (go_fmt.decimalN userID) + 2 - 2)%nat
    with (String.length (go_fmt.decimalN userID)) by lia.
  rewrite substring_left.
  change 2%nat with (String.length (dquote ++ "}")) at 1.
  rewrite substring_right.
  unfold go_fmt.decimalN. rewrite NilEmpty.usu, Unsigned.of_to.
  reflexivity.
Qed.

Lemma store_metaRequest (vanity : string) (st : kv.Store) :
  kv.store (metaRequest vanity) st =
  match st !! vanity with
  | None => (Ok kv.notFound, st)
  | Some (_, metadata) =>
      (Ok {| StatusCode := 200; Body_Decode := kv.decodeMetadata metadata |}, st)
  end.
Proof.
  unfold kv.store. change (isGet (metaRequest vanity)) with true. cbv iota.
  change (http.URL (metaRequest vanity)) with (metadataApiURL ++ vanity).
  now rewrite stripPrefix_app.
Qed.

Lemma store_valueRequest (pubUserID vanity : string) (userID : snowflake) (st : kv.Store) :
  kv.store (valueRequest pubUserID vanity userID) st =
  (Ok {| StatusCode := 200; Body_Decode := Err "EOF" |},
   <[vanity := (pubUserID, ownerMetadata userID)]> st).
Proof.
  unfold kv.store.
  change (isGet (valueRequest pubUserID vanity userID)) with false.
  change (isPut (valueRequest pubUserID vanity userID)) with true. cbv iota.
  change (http.URL (valueRequest pubUserID vanity userID)) with (valuesApiURL ++ vanity).
  now rewrite stripPrefix_app.
Qed.

(** *** What the handler reads of the invocation *)

Lemma pubUserIDOf_withOption event pubUserID :
  pubUserIDOf (withOption event "sb_user_id" pubUserID) = pubUserID.
Proof.
  unfold pubUserIDOf, Data_String, withOption. cbn [Options].
  now rewrite lookup_insert_eq.
Qed.

Lemma vanityOf_withOption_id event pubUserID :
  vanityOf (withOption event "sb_user_id" pubUserID) = vanityOf event.
Proof.
  unfold vanityOf, Data_String, withOption. cbn [Options].
  now rewrite lookup_insert_ne by done.
Qed.




(** *** Lowering ASCII strings *)

Lemma lowerByte_fixed c : go_strings.isUpperByte c = false -> go_strings.lowerByte c = c.
Proof. unfold go_strings.lowerByte. now intros ->. Qed.

Lemma mapBytes_no_upper s :
  go_strings.hasUpper s = false -> go_strings.mapBytes go_strings.lowerByte s = s.
Proof.
  induction s as [|c s IH]; simpl; [reflexivity|].
  rewrite orb_false_iff. intros [Hc Hs]. now rewrite lowerByte_fixed, IH.
Qed.

Lemma ToLower_ascii s :
  go_strings.isASCII s = true -> lower s = go_strings.mapBytes go_strings.lowerByte s.
Proof.
  unfold ToLower, go_strings.ToLower. intros ->.
  destruct (go_strings.hasUpper s) eqn:Hupper; [reflexivity|].
  now rewrite mapBytes_no_upper.
Qed.





(** *** Lowering against the alphabet *)









(** *** The branch is read off the run up to the write *)

Lemma decision_no_write t : writes t = [] -> decision t = t.
Proof.
  unfold writes. induction t as [|[e|r res] t IH]; simpl; [reflexivity| |].
  - intros H. now rewrite IH.
  - destruct (isPut r); [intros H; discriminate H|]. intros H. now rewrite IH.
Qed.

Lemma branch_decision t : branch (decision t) = branch t.
Proof.
  destruct (writes t) as [|w ws] eqn:Hw; [now rewrite decision_no_write|].
  unfold branch.
  assert (Hboth : exists x xs y ys z zs u us,
             steps (decision t) = x :: xs /\ steps t = y :: ys
             /\ writes (decision t) = z :: zs /\ writes t = u :: us).
  { revert w ws Hw. unfold writes.
    induction t as [|[e|r res] t IH]; simpl; intros w ws Hw; [discriminate| |].
    - destruct (IH w ws Hw) as (x & xs & y & ys & z & zs & u & us & H1 & H2 & H3 & H4).
      rewrite H1, H2, H3, H4. destruct e; eauto 12.
    - destruct (isPut r) eqn:Hput.
      + simpl. unfold isPut in *. cbn [http.Method]. rewrite Hput. eauto 12.
      + destruct (IH w ws Hw) as (x & xs & y & ys & z & zs & u & us & H1 & H2 & H3 & H4).
        simpl. rewrite Hput, H3, H4. eauto 12. }
  destruct Hboth as (x & xs & y & ys & z & zs & u & us & H1 & H2 & H3 & H4).
  now rewrite H1, H2, H3, H4.
Qed.

(** ** The claims *)

(** C7. A public user id that is not one or more lower-case hex digits is
    rejected with the validation message and nothing else happens: no
    acknowledgment, no request, the world's state untouched.  A public
    user id of that format passes this validation: the rejection message
    is not sent. *)
Theorem C7_public_id_validation {S : Type} (world : World S) (s : S) event :
  (isPublicID (pubUserIDOf event) ->
     ~ In invalidUserIDReply (fst (run world (handler event) s)))
  /\ (~ isPublicID (pubUserIDOf event) ->
      run world (handler event) s = ([invalidUserIDReply], s)
      /\ steps (fst (run world (handler event) s)) = []).
Proof.
  split; intros Hid.
  - apply MatchString_publicID in Hid.
    outcomes world event s t s'; try congruence; simpl; intuition discriminate.
  - rewrite <- MatchString_publicID in Hid. apply not_true_is_false in Hid.
    outcomes world event s t s'; try congruence. split; reflexivity.
Qed.

(** The alias validation as the code has it: with a valid public id, the
    run is the rejection alone when the lowered alias is not a non-empty run
    of letters and digits, and starts with the acknowledgment when it is one,
    of whatever length. *)
Lemma alias_validation_as_coded {S : Type} (world : World S) (s : S) event :
  isPublicID (pubUserIDOf event) ->
  (go_regexp.MatchString vanityRegex (vanityOf event) = false ->
     run world (handler event) s = ([invalidVanityReply], s))
  /\ (go_regexp.MatchString vanityRegex (vanityOf event) = true ->
      hd_error (fst (run world (handler event) s)) = Some acknowledgment).
Proof.
  intros Hid. apply MatchString_publicID in Hid.
  split; intros Hvanity; outcomes world event s t s'; try congruence; reflexivity.
Qed.

(** C3. When the metadata read answers 200 and the decoded owner is not the
    requester, no value write is sent, and the one follow-up says the alias
    is taken and names that owner. *)
Theorem C3_conflict {S : Type} (world : World S) (s s1 : S) event metaRs response :
  isPublicID (pubUserIDOf event) ->
  go_regexp.MatchString vanityRegex (vanityOf event) = true ->
  url_Parse_error (metadataApiURL ++ vanityOf event) = None ->
  world (metaRequest (vanityOf event)) s = (Ok metaRs, s1) ->
  StatusCode metaRs = 200%Z ->
  Body_Decode metaRs = Ok response ->
  Result_ID response <> User_ID event ->
  writes (fst (run world (handler event) s)) = []
  /\ followups (fst (run world (handler event) s))
     = ["This vanity is already taken by <@" ++ go_fmt.decimalN (Result_ID response) ++ ">."].
Proof.
  intros Hid Hvanity Hurl Hdo Hcode Hbody Howner.
  apply MatchString_publicID in Hid.
  outcomes world event s t s'; try congruence.
  replace response0 with response by congruence.
  split; reflexivity.
Qed.

(** C4. The user is told of success exactly when the value write was
    answered with status 200.  On any other status the run ends with one
    warning in the log: the write is not sent again and the user gets no
    message. *)
Theorem C4_write_result {S : Type} (world : World S) (s : S) event :
  (followups (fst (run world (handler event) s))
     = [successMessage (vanityOf event) (pubUserIDOf event)]
   <-> exists valueRs, writeAnswers (fst (run world (handler event) s)) = [Ok valueRs]
                       /\ StatusCode valueRs = 200%Z)
  /\ (forall valueRs,
        writeAnswers (fst (run world (handler event) s)) = [Ok valueRs] ->
        StatusCode valueRs <> 200%Z ->
        messages (fst (run world (handler event) s)) = []
        /\ length (writes (fst (run world (handler event) s))) = 1%nat
        /\ logs (fst (run world (handler event) s))
           = [EvEffect (LogWarnf "received code %d after running a value request"
                                 [go_fmt.ArgInt (StatusCode valueRs)])]).
Proof.
  outcomes world event s t s'; (split; [split|]);
    try (intros (valueRs' & Hans & Hcode'); simpl in Hans);
    try (intros valueRs' Hans Hcode'; simpl in Hans);
    try (intros Hfollow; simpl in Hfollow);
    try discriminate; try congruence.
  all: try (exists valueRs; split; [reflexivity | assumption]).
  all: try reflexivity.
  all: try (repeat split; reflexivity).
  all: injection Hans as <-; repeat split; reflexivity.
Qed.

(** C6. Every value write carries the form fields [value], the public user
    id as given, and [metadata], the text [{"id":"<requesterID>"}] with the
    requester's account id in decimal.  So a store that records the two
    fields holds, after a claim that reported success, the requester's
    public id under the alias together with metadata that reads back as the
    requester. *)
Theorem C6_write_body {S : Type} (world : World S) (s : S) (st : kv.Store) event :
  Forall (fun r => http.Body r =
                   Some {| multipart.boundary := randomBoundary;
                           multipart.fields :=
                             [("value", pubUserIDOf event);
                              ("metadata",
                               "{" ++ dquote ++ "id" ++ dquote ++ ":" ++ dquote
                               ++ go_fmt.decimalN (User_ID event) ++ dquote ++ "}")] |})
         (writes (fst (run world (handler event) s)))
  /\ (followups (fst (run kv.store (handler event) st))
       = [successMessage (vanityOf event) (pubUserIDOf event)] ->
      exists metadata,
        snd (run kv.store (handler event) st) !! vanityOf event
          = Some (pubUserIDOf event, metadata)
        /\ kv.decodeMetadata metadata = Ok {| Result_ID := User_ID event |}).
Proof.
  split.
  - outcomes world event s t s'; repeat constructor.
  - outcomes kv.store event st t s'; simpl; intros Hfollow; try discriminate.
    all: exists (ownerMetadata (User_ID event)).
    all: split; [|apply decodeMetadata_ownerMetadata].
    all: match goal with
         | Hput : kv.store (valueRequest _ _ _) _ = _ |- _ =>
             rewrite store_valueRequest in Hput; injection Hput as _ <-
         end.
    all: apply lookup_insert_eq.
Qed.

(** C8. The network steps of one command come in the order acknowledgment,
    metadata read, value write, each at most once and none without the ones
    before it.  The acknowledgment is only sent for inputs that passed both
    validations, and a value write is only sent after the metadata read has
    come back with a response. *)
Theorem C8_step_order {S : Type} (world : World S) (s : S) event :
  (steps (fst (run world (handler event) s)) = []
   \/ steps (fst (run world (handler event) s)) = [Acknowledge]
   \/ steps (fst (run world (handler event) s)) = [Acknowledge; MetadataRead]
   \/ steps (fst (run world (handler event) s)) = [Acknowledge; MetadataRead; ValueWrite])
  /\ (steps (fst (run world (handler event) s)) <> [] ->
      isPublicID (pubUserIDOf event)
      /\ go_regexp.MatchString vanityRegex (vanityOf event) = true)
  /\ (writes (fst (run world (handler event) s)) <> [] ->
      exists metaRs rest,
        fst (run world (handler event) s)
        = acknowledgment :: EvDo (metaRequest (vanityOf event)) (Ok metaRs) :: rest
        /\ requests rest = writes (fst (run world (handler event) s))).
Proof.
  outcomes world event s t s'; (split; [|split]);
    try (intros Hsteps; split; [now apply MatchString_publicID | assumption]);
    try (intros Hsteps; now contradiction Hsteps);
    try (intros Hwrites; eexists; eexists; split; reflexivity);
    simpl; tauto.
Qed.

(** C2, as the code has it.  A metadata read that fails without a
    response, and a 200 response whose body does not decode, abandon the
    attempt: one error in the log, no value write, no message to the user.
    A response with any status other than 200, not-found or not, is taken
    as an unclaimed alias: the value write is sent. *)
Theorem C2_metadata_read_failures {S : Type} (world : World S) (s s1 : S) event res :
  isPublicID (pubUserIDOf event) ->
  go_regexp.MatchString vanityRegex (vanityOf event) = true ->
  url_Parse_error (metadataApiURL ++ vanityOf event) = None ->
  world (metaRequest (vanityOf event)) s = (res, s1) ->
  (forall err, res = Err err ->
     run world (handler event) s
     = ([acknowledgment; EvDo (metaRequest (vanityOf event)) (Err err);
         EvEffect (LogError
           [go_fmt.ArgString "there was an error while running a metadata request: ";
            go_fmt.ArgError err])], s1))
  /\ (forall metaRs err, res = Ok metaRs -> StatusCode metaRs = 200%Z ->
       Body_Decode metaRs = Err err ->
       run world (handler event) s
       = ([acknowledgment; EvDo (metaRequest (vanityOf event)) (Ok metaRs);
           EvEffect (LogErrorf "there was an error while decoding the metadata response (%d): "
                               [go_fmt.ArgInt 200; go_fmt.ArgError err])], s1))
  /\ (forall metaRs, res = Ok metaRs -> StatusCode metaRs <> 200%Z ->
       url_Parse_error (valuesApiURL ++ vanityOf event) = None ->
       writes (fst (run world (handler event) s))
       = [valueRequest (pubUserIDOf event) (vanityOf event) (User_ID event)]).
Proof.
  intros Hid Hvanity Hurl Hdo. apply MatchString_publicID in Hid.
  repeat split.
  - intros err ->. outcomes world event s t s'; congruence.
  - intros metaRs err -> Hcode Hbody. rewrite <- Hcode.
    outcomes world event s t s'; congruence.
  - intros metaRs -> Hcode Hurl'. outcomes world event s t s'; try congruence; reflexivity.
Qed.

(** C9. Between two invocations by the same user for the same alias, from
    the same state of the same world, that differ only in the (valid)
    public user id, everything up to the value write is the same: the
    acknowledgment, the metadata read and its answer, a conflict message or
    a logged failure, and whether and where a write is sent.  So both take
    the same branch. *)
Theorem C9_public_id_does_not_decide {S : Type} (world : World S) (s : S) event pubUserID' :
  isPublicID (pubUserIDOf event) ->
  isPublicID pubUserID' ->
  decision (fst (run world (handler (withOption event "sb_user_id" pubUserID')) s))
  = decision (fst (run world (handler event) s))
  /\ branch (fst (run world (handler (withOption event "sb_user_id" pubUserID')) s))
     = branch (fst (run world (handler event) s)).
Proof.
  intros Hid Hid'. apply MatchString_publicID in Hid, Hid'.
  assert (Hdecision :
    decision (fst (run world (handler (withOption event "sb_user_id" pubUserID')) s))
    = decision (fst (run world (handler event) s))).
  { pose proof (run_handler world event s) as Hrun.
    pose proof (run_handler world (withOption event "sb_user_id" pubUserID') s) as Hrun'.
    destruct (run world (handler event) s) as [t s1].
    destruct (run world (handler (withOption event "sb_user_id" pubUserID')) s) as [t' s1'].
    cbn [fst snd] in *.
    invert_outcomes;
      rewrite ?pubUserIDOf_withOption, ?vanityOf_withOption_id in *;
      cbn [User_ID withOption] in *;
      try congruence;
      repeat match goal with
             | H1 : world ?r ?s0 = _, H2 : world ?r ?s0 = _ |- _ =>
                 rewrite H1 in H2; injection H2 as; subst
             end;
      try congruence; reflexivity. }
  split; [exact Hdecision|].
  rewrite <- (branch_decision (fst (run world (handler event) s))), <- Hdecision.
  symmetry. apply branch_decision.
Qed.


(** The store's answers, put in place of the equations of an outcome. *)
Ltac store_answers :=
  repeat match goal with
         | H : kv.store (metaRequest _) _ = _ |- _ => rewrite store_metaRequest in H
         | H : kv.store (valueRequest _ _ _) _ = _ |- _ =>
             rewrite store_valueRequest in H; injection H as ? ?; subst
         | H : match ?st !! ?k with _ => _ end = _ |- _ =>
             let E := fresh "Hlookup" in
             destruct (st !! k) as [[? ?]|] eqn:E; injection H as ? ?; subst
         end;
  repeat match goal with
         | H : _ = Some _ |- _ =>
             rewrite lookup_insert_eq in H; injection H as ? ?; subst
         | H : _ = None |- _ =>
             rewrite lookup_insert_eq in H; discriminate H
         end.

(** C5. When the metadata read names the requester as the owner, the value
    write is still sent, with the requester's own public id and account
    id.  Against the store, running the same claim a second time leaves the
    stored state as the first run left it; and after a claim that reported
    success, the second run finds the requester as owner, writes the same
    record and reports success again. *)
Theorem C5_reclaim_own_alias {S : Type} (world : World S) (s s1 : S) (st : kv.Store)
    event metaRs :
  (isPublicID (pubUserIDOf event) ->
   go_regexp.MatchString vanityRegex (vanityOf event) = true ->
   url_Parse_error (metadataApiURL ++ vanityOf event) = None ->
   url_Parse_error (valuesApiURL ++ vanityOf event) = None ->
   world (metaRequest (vanityOf event)) s = (Ok metaRs, s1) ->
   StatusCode metaRs = 200%Z ->
   Body_Decode metaRs = Ok {| Result_ID := User_ID event |} ->
   writes (fst (run world (handler event) s))
   = [valueRequest (pubUserIDOf event) (vanityOf event) (User_ID event)])
  /\ snd (run kv.store (handler event) (snd (run kv.store (handler event) st)))
     = snd (run kv.store (handler event) st)
  /\ (followups (fst (run kv.store (handler event) st))
       = [successMessage (vanityOf event) (pubUserIDOf event)] ->
      followups (fst (run kv.store (handler event) (snd (run kv.store (handler event) st))))
      = [successMessage (vanityOf event) (pubUserIDOf event)]
      /\ writes (fst (run kv.store (handler event) (snd (run kv.store (handler event) st))))
         = [valueRequest (pubUserIDOf event) (vanityOf event) (User_ID event)]).
Proof.
  split; [|split].
  - intros Hid Hvanity Hurl Hurl' Hdo Hcode Hbody. apply MatchString_publicID in Hid.
    outcomes world event s t s'; try congruence; try reflexivity.
    all: match goal with
         | H : Result_ID _ <> _ |- _ => contradiction H
         end.
    all: replace response with {| Result_ID := User_ID event |} by congruence; reflexivity.
  - pose proof (run_handler kv.store event st) as Hrun.
    destruct (run kv.store (handler event) st) as [t1 st1]. cbn [fst snd] in *.
    pose proof (run_handler kv.store event st1) as Hrun'.
    destruct (run kv.store (handler event) st1) as [t2 st2]. cbn [fst snd] in *.
    invert_outcomes; store_answers; try reflexivity; try congruence;
      apply insert_insert_eq.
  - pose proof (run_handler kv.store event st) as Hrun.
    destruct (run kv.store (handler event) st) as [t1 st1]. cbn [fst snd] in *.
    pose proof (run_handler kv.store event st1) as Hrun'.
    destruct (run kv.store (handler event) st1) as [t2 st2]. cbn [fst snd] in *.
    intros Hfollow.
    invert_outcomes; try discriminate Hfollow; store_answers;
      cbn [StatusCode Body_Decode kv.notFound] in *;
      rewrite ?decodeMetadata_ownerMetadata in *;
      try (split; reflexivity); try congruence.
    all: match goal with
         | Hdec : Ok _ = Ok ?r, Hne : Result_ID ?r <> _ |- _ =>
             injection Hdec as <-; now contradiction Hne
         end.
Qed.

(** ** Further properties of the handler *)

(** X1. A run answers the interaction in one of two ways and never mixes
    them: the immediate ephemeral reply alone (a rejection), or the
    ephemeral acknowledgment followed by at most one follow-up, with no
    immediate reply and no second acknowledgment after it. *)
Theorem X1_reply_protocol {S : Type} (world : World S) (s : S) event :
  fst (run world (handler event) s) = [invalidUserIDReply]
  \/ fst (run world (handler event) s) = [invalidVanityReply]
  \/ exists rest,
       fst (run world (handler event) s) = EvEffect (DeferCreateMessage true) :: rest
       /\ messages rest = followups rest
       /\ (length (followups rest) <= 1)%nat
       /\ ~ In Acknowledge (steps rest).
Proof.
  outcomes world event s t s'; auto.
  all: right; right; eexists; split; [reflexivity|].
  all: simpl; repeat split; auto; intuition discriminate.
Qed.

(** X2. Every run reports its end exactly once, and as its last event:
    either one message to the user or one entry in the log, never both and
    never neither. *)
Theorem X2_one_report {S : Type} (world : World S) (s : S) event :
  (length (messages (fst (run world (handler event) s)))
   + length (logs (fst (run world (handler event) s))) = 1)%nat
  /\ (length (messages [List.last (fst (run world (handler event) s)) acknowledgment])
      + length (logs [List.last (fst (run world (handler event) s)) acknowledgment]) = 1)%nat.
Proof.
  outcomes world event s t s'; split; reflexivity.
Qed.

(** X3. Every request carries the store token in an [Authorization]
    header, once and first.  The metadata read has no other header and no
    body; the value write has a body and a [Content-Type] header naming the
    boundary of that body. *)
Theorem X3_request_headers {S : Type} (world : World S) (s : S) event :
  Forall (fun r =>
            (isPut r = false
             /\ http.Header r = [("Authorization", cfApiToken)]
             /\ http.Body r = None)
            \/ (isPut r = true
                /\ exists w,
                     http.Body r = Some w
                     /\ http.Header r
                        = [("Authorization", cfApiToken);
                           ("Content-Type",
                            "multipart/form-data; boundary=" ++ multipart.boundary w)]))
         (requests (fst (run world (handler event) s))).
Proof.
  outcomes world event s t s'; simpl;
    repeat (constructor;
            [first [ left; repeat split; reflexivity
                   | right; split; [reflexivity | eexists; split; reflexivity] ] |]);
    constructor.
Qed.

(** *** The alias key, byte by byte *)

Lemma lowerByte_alphanumeric c :
  existsb (Ascii.eqb (go_strings.lowerByte c)) alphanumerics
  = existsb (Ascii.eqb (go_strings.lowerByte c)) lowerAlphanumerics.
Proof. destruct c as [[] [] [] [] [] [] [] []]; reflexivity. Qed.

Lemma inClass_vanity_lowerByte c :
  go_regexp.inClass (go_regexp.class vanityRegex) (go_strings.lowerByte c)
  = go_regexp.inClass (go_regexp.class vanityRegex) c.
Proof. destruct c as [[] [] [] [] [] [] [] []]; reflexivity. Qed.

Lemma length_mapBytes f s : String.length (go_strings.mapBytes f s) = String.length s.
Proof. induction s as [|c s IH]; simpl; [reflexivity | now rewrite IH]. Qed.

Lemma allInClass_vanity_lower s :
  go_regexp.allInClass (go_regexp.class vanityRegex)
    (go_strings.mapBytes go_strings.lowerByte s)
  = go_regexp.allInClass (go_regexp.class vanityRegex) s.
Proof.
  induction s as [|c s IH]; cbn [go_regexp.allInClass go_strings.mapBytes]; [reflexivity|].
  now rewrite IH, inClass_vanity_lowerByte.
Qed.

(** On ASCII input the pattern sees through the lowering: the alias is
    accepted as typed, in whatever case. *)
Lemma MatchString_vanity_lower a :
  go_strings.isASCII a = true ->
  go_regexp.MatchString vanityRegex (lower a) = go_regexp.MatchString vanityRegex a.
Proof.
  intros Ha. rewrite (ToLower_ascii a Ha). unfold go_regexp.MatchString.
  now rewrite length_mapBytes, allInClass_vanity_lower.
Qed.

(** An accepted ASCII alias is lowered to digits and lower-case letters. *)
Lemma lowered_key a :
  go_strings.isASCII a = true ->
  go_regexp.MatchString vanityRegex (lower a) = true ->
  lower a <> "" /\ Forall (fun c => In c lowerAlphanumerics) (list_ascii_of_string (lower a)).
Proof.
  intros Ha Hmatch. apply MatchString_vanity in Hmatch as [Hne Hall].
  split; [exact Hne|]. rewrite (ToLower_ascii a Ha) in Hall |- *. clear Hne Ha.
  induction a as [|c a IH];
    cbn [list_ascii_of_string go_strings.mapBytes] in Hall |- *; [constructor|].
  apply Forall_cons_iff in Hall as [Hc Hall]. constructor; [|now apply IH].
  apply existsb_eqb_In. rewrite <- lowerByte_alphanumeric. now apply existsb_eqb_In.
Qed.

(** X4. For an alias given in ASCII, every request addresses a key that is
    a non-empty run of digits and lower-case letters: no upper-case letter
    and no byte that could end or extend the path reaches the store's
    URL. *)
Theorem X4_key_alphabet {S : Type} (world : World S) (s : S) event :
  go_strings.isASCII (Data_String event "vanity") = true ->
  Forall (fun r =>
            exists key,
              http.URL r = (if isPut r then valuesApiURL else metadataApiURL) ++ key
              /\ key <> ""
              /\ Forall (fun c => In c lowerAlphanumerics) (list_ascii_of_string key))
         (requests (fst (run world (handler event) s))).
Proof.
  intros Hascii. pose proof (lowered_key _ Hascii) as Hkey.
  change (lower (Data_String event "vanity")) with (vanityOf event) in Hkey.
  outcomes world event s t s'; simpl;
    repeat (constructor; [exists (vanityOf event); split; [reflexivity | now apply Hkey] |]);
    constructor.
Qed.

(** X5. With a valid public id and an alias given in ASCII, the alias is
    validated as typed: a non-empty run of ASCII letters and digits, upper
    case included and of any length, is acknowledged; anything else gets
    the rejection and nothing more. *)
Theorem X5_alias_as_typed {S : Type} (world : World S) (s : S) event :
  isPublicID (pubUserIDOf event) ->
  go_strings.isASCII (Data_String event "vanity") = true ->
  (Data_String event "vanity" <> ""
   /\ Forall (fun c => In c alphanumerics) (list_ascii_of_string (Data_String event "vanity")) ->
   hd_error (fst (run world (handler event) s)) = Some acknowledgment)
  /\ (~ (Data_String event "vanity" <> ""
         /\ Forall (fun c => In c alphanumerics)
                   (list_ascii_of_string (Data_String event "vanity"))) ->
      run world (handler event) s = ([invalidVanityReply], s)).
Proof.
  intros Hid Hascii. apply MatchString_publicID in Hid.
  pose proof (MatchString_vanity_lower _ Hascii) as Hlower.
  change (lower (Data_String event "vanity")) with (vanityOf event) in Hlower.
  split; intros Htyped.
  - apply MatchString_vanity in Htyped. rewrite <- Hlower in Htyped.
    outcomes world event s t s'; try congruence; reflexivity.
  - rewrite <- MatchString_vanity, <- Hlower in Htyped. apply not_true_is_false in Htyped.
    outcomes world event s t s'; congruence.
Qed.

(** *** The two endpoints *)

Lemma endpoints_disjoint (k1 k2 : string) : metadataApiURL ++ k1 <> valuesApiURL ++ k2.
Proof.
  intros Heq. apply (f_equal (kv.stripPrefix metadataApiURL)) in Heq.
  rewrite stripPrefix_app in Heq. vm_compute in Heq. discriminate Heq.
Qed.

Lemma append_inj (p a b : string) : p ++ a = p ++ b -> a = b.
Proof.
  intros Heq. apply (f_equal (kv.stripPrefix p)) in Heq.
  rewrite !stripPrefix_app in Heq. now injection Heq.
Qed.

Lemma request_urls {S : Type} (world : World S) (s : S) event :
  Forall (fun r => http.URL r = metadataApiURL ++ vanityOf event
                   \/ http.URL r = valuesApiURL ++ vanityOf event)
         (requests (fst (run world (handler event) s))).
Proof.
  outcomes world event s t s'; simpl; repeat (constructor; [auto|]); constructor.
Qed.

(** X6. Invocations whose aliases are lowered to different strings never
    address the same URL, whatever the worlds they run in: neither the two
    reads, nor the two writes, nor the read of one and the write of the
    other. *)
Theorem X6_distinct_aliases_distinct_urls {S : Type} (world1 world2 : World S) (s1 s2 : S)
    event1 event2 r1 r2 :
  vanityOf event1 <> vanityOf event2 ->
  In r1 (requests (fst (run world1 (handler event1) s1))) ->
  In r2 (requests (fst (run world2 (handler event2) s2))) ->
  http.URL r1 <> http.URL r2.
Proof.
  intros Hdiff Hin1 Hin2 Heq.
  pose proof (request_urls world1 s1 event1) as Hurls1.
  pose proof (request_urls world2 s2 event2) as Hurls2.
  rewrite List.Forall_forall in Hurls1, Hurls2.
  destruct (Hurls1 r1 Hin1) as [H1|H1], (Hurls2 r2 Hin2) as [H2|H2];
    rewrite H1, H2 in Heq.
  - now apply append_inj in Heq.
  - now apply endpoints_disjoint in Heq.
  - symmetry in Heq. now apply endpoints_disjoint in Heq.
  - now apply append_inj in Heq.
Qed.

(** *** The handler against the store *)

Lemma store_frame (st : kv.Store) event (key : string) :
  key <> vanityOf event ->
  snd (run kv.store (handler event) st) !! key = st !! key.
Proof.
  intros Hkey.
  outcomes kv.store event st t st'; store_answers; try reflexivity.
  all: now apply lookup_insert_ne.
Qed.

(** What a run does depends on the store only through the record under
    its own key: from two stores that agree there, the user and the log see
    the same, and the run either leaves both stores alone or puts the same
    record into both. *)
Lemma run_local (st st' : kv.Store) event :
  st !! vanityOf event = st' !! vanityOf event ->
  fst (run kv.store (handler event) st) = fst (run kv.store (handler event) st')
  /\ ((snd (run kv.store (handler event) st) = st
       /\ snd (run kv.store (handler event) st') = st')
      \/ (snd (run kv.store (handler event) st)
          = <[vanityOf event := (pubUserIDOf event, ownerMetadata (User_ID event))]> st
          /\ snd (run kv.store (handler event) st')
             = <[vanityOf event := (pubUserIDOf event, ownerMetadata (User_ID event))]> st')).
Proof.
  intros Hagree.
  pose proof (run_handler kv.store event st) as Hrun.
  destruct (run kv.store (handler event) st) as [t1 st1].
  pose proof (run_handler kv.store event st') as Hrun'.
  destruct (run kv.store (handler event) st') as [t2 st2]. cbn [fst snd] in *.
  invert_outcomes; store_answers;
    cbn [StatusCode Body_Decode kv.notFound] in *; try congruence.
  all: repeat match goal with
              | H1 : ?m !! ?k = Some _, H2 : ?m' !! ?k = Some _, H3 : ?m !! ?k = ?m' !! ?k |- _ =>
                  rewrite H1, H2 in H3; injection H3 as ? ?; subst
              end.
  all: try congruence.
  all: split; [try reflexivity; try congruence | first [left; split; reflexivity | right; split; reflexivity]].
Qed.

(** X7. A run touches no record but its own: under every key other than
    the lowered alias the store holds after the run what it held before. *)
Theorem X7_store_frame (st : kv.Store) event (key : string) :
  key <> vanityOf event ->
  snd (run kv.store (handler event) st) !! key = st !! key.
Proof. apply store_frame. Qed.

(** X8. A record that carries the metadata the handler writes for another
    account is never overwritten: whatever the command, no write is sent
    and the store stays as it was. *)
Theorem X8_owned_alias_protected (st : kv.Store) event (value : string)
    (ownerID : snowflake) :
  st !! vanityOf event
    = Some (value, go_fmt.Sprintf metadataFormat [go_fmt.ArgID ownerID]) ->
  ownerID <> User_ID event ->
  snd (run kv.store (handler event) st) = st
  /\ writes (fst (run kv.store (handler event) st)) = [].
Proof.
  rewrite Sprintf_metadata. intros Hrecord Hother.
  outcomes kv.store event st t st'; store_answers;
    repeat match goal with
           | H : Some _ = Some _ |- _ => injection H as ? ?; subst
           end;
    cbn [StatusCode Body_Decode kv.notFound] in *;
    rewrite ?decodeMetadata_ownerMetadata in *;
    try (split; reflexivity); try congruence.
  all: match goal with
       | Hdec : Ok _ = Ok ?r |- _ => injection Hdec as <-
       end.
  all: cbn [Result_ID] in *; congruence.
Qed.

(** X9. A valid claim of an alias the store does not hold succeeds: the
    read is answered not-found, the write is sent, the user is told, and
    the store then holds the public id under the lowered alias with the
    requester as owner. *)
Theorem X9_free_alias_claimed (st : kv.Store) event :
  isPublicID (pubUserIDOf event) ->
  go_regexp.MatchString vanityRegex (vanityOf event) = true ->
  url_Parse_error (metadataApiURL ++ vanityOf event) = None ->
  url_Parse_error (valuesApiURL ++ vanityOf event) = None ->
  st !! vanityOf event = None ->
  run kv.store (handler event) st
  = ([acknowledgment;
      EvDo (metaRequest (vanityOf event)) (Ok kv.notFound);
      EvDo (valueRequest (pubUserIDOf event) (vanityOf event) (User_ID event))
           (Ok {| StatusCode := 200; Body_Decode := Err "EOF" |});
      followup (successMessage (vanityOf event) (pubUserIDOf event))],
     <[vanityOf event := (pubUserIDOf event, ownerMetadata (User_ID event))]> st).
Proof.
  intros Hid Hvanity Hurl Hurl' Hfree. apply MatchString_publicID in Hid.
  outcomes kv.store event st t st'; store_answers;
    cbn [StatusCode Body_Decode kv.notFound] in *;
    try congruence; reflexivity.
Qed.

(** X10. Run one after the other, the first claim wins: once a claim has
    reported success, a claim of the same lowered alias by another account
    is told the alias is taken by the first, sends no write and leaves the
    first requester's record in place. *)
Theorem X10_first_claim_wins (st : kv.Store) eventA eventB :
  followups (fst (run kv.store (handler eventA) st))
    = [successMessage (vanityOf eventA) (pubUserIDOf eventA)] ->
  isPublicID (pubUserIDOf eventB) ->
  vanityOf eventB = vanityOf eventA ->
  User_ID eventB <> User_ID eventA ->
  run kv.store (handler eventB) (snd (run kv.store (handler eventA) st))
  = ([acknowledgment;
      EvDo (metaRequest (vanityOf eventA))
           (Ok {| StatusCode := 200;
                  Body_Decode := Ok {| Result_ID := User_ID eventA |} |});
      followup (takenMessage (User_ID eventA))],
     snd (run kv.store (handler eventA) st))
  /\ snd (run kv.store (handler eventA) st) !! vanityOf eventA
     = Some (pubUserIDOf eventA, ownerMetadata (User_ID eventA)).
Proof.
  intros Hfollow Hid Hsame Hother. apply MatchString_publicID in Hid.
  pose proof (run_handler kv.store eventA st) as HrunA.
  destruct (run kv.store (handler eventA) st) as [tA stA]. cbn [fst snd] in *.
  pose proof (run_handler kv.store eventB stA) as HrunB.
  destruct (run kv.store (handler eventB) stA) as [tB stB]. cbn [fst snd] in *.
  invert_outcomes; try discriminate Hfollow;
    rewrite ?Hsame in *; store_answers;
    cbn [StatusCode Body_Decode kv.notFound] in *;
    rewrite ?decodeMetadata_ownerMetadata in *;
    try congruence.
  all: match goal with
       | Hdec : Ok _ = Ok ?r |- _ => injection Hdec as <-
       end.
  all: cbn [Result_ID] in *; try congruence.
  all: split; reflexivity.
Qed.

(** X11. The metadata text written for a requester reads back as that
    requester, so the texts written for two different accounts differ. *)
Theorem X11_metadata_round_trip (userID : snowflake) :
  kv.decodeMetadata (go_fmt.Sprintf metadataFormat [go_fmt.ArgID userID])
  = Ok {| Result_ID := userID |}
  /\ (forall userID',
        go_fmt.Sprintf metadataFormat [go_fmt.ArgID userID]
        = go_fmt.Sprintf metadataFormat [go_fmt.ArgID userID'] ->
        userID = userID').
Proof.
  rewrite Sprintf_metadata. split; [apply decodeMetadata_ownerMetadata|].
  intros userID' Heq. rewrite Sprintf_metadata in Heq.
  apply (f_equal kv.decodeMetadata) in Heq.
  rewrite !decodeMetadata_ownerMetadata in Heq. now injection Heq.
Qed.


Lemma lagging_metaRequest (vanity : string) (seen live : kv.Store) :
  kv.lagging (metaRequest vanity) (seen, live)
  = (fst (kv.store (metaRequest vanity) seen), (seen, live)).
Proof. reflexivity. Qed.

Lemma lagging_valueRequest (pubUserID vanity : string) (userID : snowflake)
    (seen live : kv.Store) :
  kv.lagging (valueRequest pubUserID vanity userID) (seen, live)
  = (Ok {| StatusCode := 200; Body_Decode := Err "EOF" |},
     (seen, <[vanity := (pubUserID, ownerMetadata userID)]> live)).
Proof.
  unfold kv.lagging.
  change (isGet (valueRequest pubUserID vanity userID)) with false. cbv iota.
  now rewrite store_valueRequest.
Qed.

(** X12. The write is unconditional: it is decided on the answer to the
    read alone.  When the read was answered from a state of the store in
    which the alias was free, the write goes out and replaces whatever the
    store holds under the alias by then, another account's record
    included, and the user is told of success. *)
Theorem X12_stale_read_overwrites (seen live : kv.Store) event :
  isPublicID (pubUserIDOf event) ->
  go_regexp.MatchString vanityRegex (vanityOf event) = true ->
  url_Parse_error (metadataApiURL ++ vanityOf event) = None ->
  url_Parse_error (valuesApiURL ++ vanityOf event) = None ->
  seen !! vanityOf event = None ->
  snd (run kv.lagging (handler event) (seen, live))
  = (seen, <[vanityOf event := (pubUserIDOf event, ownerMetadata (User_ID event))]> live)
  /\ followups (fst (run kv.lagging (handler event) (seen, live)))
     = [successMessage (vanityOf event) (pubUserIDOf event)].
Proof.
  intros Hid Hvanity Hurl Hurl' Hfree. apply MatchString_publicID in Hid.
  pose proof (run_handler kv.lagging event (seen, live)) as Hrun.
  destruct (run kv.lagging (handler event) (seen, live)) as [t st']. cbn [fst snd] in *.
  invert_outcomes; try congruence.
  all: repeat match goal with
              | H : kv.lagging (metaRequest _) _ = _ |- _ =>
                  rewrite lagging_metaRequest, store_metaRequest, Hfree in H;
                  cbn [fst] in H; injection H as ? ?; subst
              | H : kv.lagging (valueRequest _ _ _) _ = _ |- _ =>
                  rewrite lagging_valueRequest in H; injection H as ? ?; subst
              end.
  all: cbn [StatusCode Body_Decode kv.notFound] in *; try congruence.
  all: split; reflexivity.
Qed.

(** X13. Claims of different aliases do not interfere: handled one after
    the other in either order they leave the same store, and what the
    second one's user and log see is what they would have seen had the
    first never run. *)
Theorem X13_different_aliases_commute (st : kv.Store) eventA eventB :
  vanityOf eventA <> vanityOf eventB ->
  snd (run kv.store (handler eventB) (snd (run kv.store (handler eventA) st)))
  = snd (run kv.store (handler eventA) (snd (run kv.store (handler eventB) st)))
  /\ fst (run kv.store (handler eventB) (snd (run kv.store (handler eventA) st)))
     = fst (run kv.store (handler eventB) st).
Proof.
  intros Hdiff.
  assert (HB : snd (run kv.store (handler eventA) st) !! vanityOf eventB
               = st !! vanityOf eventB)
    by (apply store_frame; congruence).
  assert (HA : snd (run kv.store (handler eventB) st) !! vanityOf eventA
               = st !! vanityOf eventA)
    by (apply store_frame; congruence).
  destruct (run_local _ _ eventB HB) as [HtraceB HstoreB].
  destruct (run_local _ _ eventA HA) as [_ HstoreA].
  split; [|exact HtraceB]. clear HA HB HtraceB.
  set (stA := snd (run kv.store (handler eventA) st)) in *.
  set (stB := snd (run kv.store (handler eventB) st)) in *.
  clearbody stA stB.
  destruct HstoreB as [[HB1 HB2]|[HB1 HB2]], HstoreA as [[HA1 HA2]|[HA1 HA2]];
    rewrite HB1, HA1, HB2, HA2; try reflexivity.
  apply insert_insert_ne. congruence.
Qed.

(** X14. A command that lacks an option is read as if the option were the
    empty string, and is rejected: without [sb_user_id] with the user-id
    message, and with a valid [sb_user_id] but without [vanity] with the
    alias message; in both cases nothing else happens. *)
Theorem X14_missing_option_rejected {S : Type} (world : World S) (s : S) event :
  (Options event !! "sb_user_id" = None ->
   run world (handler event) s = ([invalidUserIDReply], s))
  /\ (isPublicID (pubUserIDOf event) ->
      Options event !! "vanity" = None ->
      run world (handler event) s = ([invalidVanityReply], s)).
Proof.
  split.
  - intros Hmissing.
    assert (Hid : go_regexp.MatchString publicIDRegex (pubUserIDOf event) = false)
      by (unfold pubUserIDOf, Data_String; rewrite Hmissing; reflexivity).
    outcomes world event s t s'; congruence.
  - intros Hid Hmissing. apply MatchString_publicID in Hid.
    assert (Hvanity : go_regexp.MatchString vanityRegex (vanityOf event) = false)
      by (unfold vanityOf, Data_String; rewrite Hmissing; reflexivity).
    outcomes world event s t s'; congruence.
Qed.

End Paths.

(** ** The claims on concrete invocations *)

Lemma allInClass_ext (cl1 cl2 : list go_regexp.ClassItem) :
  (forall c, go_regexp.inClass cl1 c = go_regexp.inClass cl2 c) ->
  forall s, go_regexp.allInClass cl1 s = go_regexp.allInClass cl2 s.
Proof.
  intros Hcl s. induction s as [|c s IH]; cbn [go_regexp.allInClass]; [reflexivity|].
  now rewrite IH, Hcl.
Qed.

(** The code's alias pattern is the specification's without the bound on
    the length. *)
Lemma vanityRegex_no_bound s :
  go_regexp.MatchString specVanityPattern s
  = go_regexp.MatchString vanityRegex s && (String.length s <=? 32)%nat.
Proof.
  unfold go_regexp.MatchString.
  rewrite (allInClass_ext (go_regexp.class specVanityPattern) (go_regexp.class vanityRegex)).
  - cbn [go_regexp.countOK go_regexp.rep specVanityPattern vanityRegex].
    now rewrite andb_assoc.
  - intros c. destruct c as [[] [] [] [] [] [] [] []]; reflexivity.
Qed.

(** C1, where the code departs from it.  An alias of 33 letters does not
    match the specification's pattern, and the rejection message itself
    says "up to 32 characters"; yet the handler acknowledges the command,
    reads the metadata, writes the value and reports success, and the
    store holds the alias. *)
Theorem C1_long_alias_accepted :
  String.length Sample.longAlias = 33%nat
  /\ go_regexp.MatchString specVanityPattern (ToLower Sample.noUnicode Sample.longAlias) = false
  /\ go_regexp.MatchString vanityRegex (ToLower Sample.noUnicode Sample.longAlias) = true
  /\ steps (fst (Sample.claim kv.store "deadbeef" Sample.longAlias 1%N ∅))
     = [Acknowledge; MetadataRead; ValueWrite]
  /\ messages (fst (Sample.claim kv.store "deadbeef" Sample.longAlias 1%N ∅))
     = [successMessage Sample.longAlias "deadbeef"]
  /\ snd (Sample.claim kv.store "deadbeef" Sample.longAlias 1%N ∅) !! Sample.longAlias
     = Some ("deadbeef", ownerMetadata 1%N).
Proof. repeat split; vm_compute; reflexivity. Qed.

(** C2 as written fails: a metadata read answered 500 (neither success nor
    not-found) does not abandon the attempt; the value write is sent and
    the user is told of success. *)
Lemma C2_server_error_proceeds_to_write :
  writes (fst (Sample.claim (Sample.answering (Sample.status 500) (Sample.status 200))
                          "deadbeef" "abc123" 123456789%N tt))
  = [valueRequest Sample.token Sample.boundary "deadbeef" "abc123" 123456789%N]
  /\ followups (fst (Sample.claim (Sample.answering (Sample.status 500) (Sample.status 200))
                                "deadbeef" "abc123" 123456789%N tt))
     = [successMessage "abc123" "deadbeef"].
Proof. split; vm_compute; reflexivity. Qed.


Lemma deadbeef_isPublicID : isPublicID "deadbeef".
Proof. apply (proj1 (MatchString_publicID "deadbeef")). reflexivity. Qed.

Lemma cafe_isPublicID : isPublicID "cafe".
Proof. apply (proj1 (MatchString_publicID "cafe")). reflexivity. Qed.

(** A metadata read answered 200 with a body that does not decode: the
    attempt is abandoned with one error in the log (C2). *)
Lemma C2_decode_failure_abandons :
  Sample.claim (Sample.answering (Sample.status 200) (Sample.status 200))
               "deadbeef" "abc123" 123456789%N tt
  = ([acknowledgment;
      EvDo (metaRequest Sample.token "abc123") (Sample.status 200);
      EvEffect (LogErrorf "there was an error while decoding the metadata response (%d): "
                          [go_fmt.ArgInt 200; go_fmt.ArgError "EOF"])], tt).
Proof.
  destruct (C2_metadata_read_failures Sample.token Sample.noUnicode Sample.parses
              Sample.boundary (Sample.answering (Sample.status 200) (Sample.status 200))
              tt tt (Sample.command "deadbeef" "abc123" 123456789%N) (Sample.status 200))
    as (_ & Hdecode & _).
  - exact deadbeef_isPublicID.
  - reflexivity.
  - reflexivity.
  - reflexivity.
  - exact (Hdecode _ "EOF" eq_refl eq_refl eq_refl).
Defined.

(** Scenario B of the specification: [taken1] is owned by 999 (C3). *)
Lemma C3_taken_by_999 :
  writes (fst (Sample.claim (Sample.answering (Sample.ownedBy 999%N) (Sample.status 200))
                            "deadbeef" "taken1" 123456789%N tt)) = []
  /\ followups (fst (Sample.claim (Sample.answering (Sample.ownedBy 999%N) (Sample.status 200))
                                  "deadbeef" "taken1" 123456789%N tt))
     = ["This vanity is already taken by <@999>."].
Proof.
  apply (C3_conflict Sample.token Sample.noUnicode Sample.parses Sample.boundary
           (Sample.answering (Sample.ownedBy 999%N) (Sample.status 200)) tt tt
           (Sample.command "deadbeef" "taken1" 123456789%N)
           {| StatusCode := 200; Body_Decode := Ok {| Result_ID := 999%N |} |}
           {| Result_ID := 999%N |}).
  - exact deadbeef_isPublicID.
  - reflexivity.
  - reflexivity.
  - reflexivity.
  - reflexivity.
  - reflexivity.
  - intros Heq. discriminate Heq.
Defined.

(** A value write answered 503: one warning, no message, no second write
    (C4). *)
Lemma C4_write_refused :
  messages (fst (Sample.claim (Sample.answering (Sample.status 404) (Sample.status 503))
                              "deadbeef" "abc123" 123456789%N tt)) = []
  /\ length (writes (fst (Sample.claim (Sample.answering (Sample.status 404) (Sample.status 503))
                                       "deadbeef" "abc123" 123456789%N tt))) = 1%nat
  /\ logs (fst (Sample.claim (Sample.answering (Sample.status 404) (Sample.status 503))
                             "deadbeef" "abc123" 123456789%N tt))
     = [EvEffect (LogWarnf "received code %d after running a value request" [go_fmt.ArgInt 503])].
Proof.
  apply (proj2 (C4_write_result Sample.token Sample.noUnicode Sample.parses Sample.boundary
                  (Sample.answering (Sample.status 404) (Sample.status 503)) tt
                  (Sample.command "deadbeef" "abc123" 123456789%N))
               {| StatusCode := 503; Body_Decode := Err "EOF" |}).
  - reflexivity.
  - intros Heq. discriminate Heq.
Defined.

(** The owner claims the alias again: the write is sent (C5). *)
Lemma C5_owner_writes_again :
  writes (fst (Sample.claim (Sample.answering (Sample.ownedBy 123456789%N) (Sample.status 200))
                            "deadbeef" "abc123" 123456789%N tt))
  = [valueRequest Sample.token Sample.boundary "deadbeef" "abc123" 123456789%N].
Proof.
  apply (proj1 (C5_reclaim_own_alias Sample.token Sample.noUnicode Sample.parses
                  Sample.boundary
                  (Sample.answering (Sample.ownedBy 123456789%N) (Sample.status 200)) tt tt ∅
                  (Sample.command "deadbeef" "abc123" 123456789%N)
                  {| StatusCode := 200; Body_Decode := Ok {| Result_ID := 123456789%N |} |})).
  - exact deadbeef_isPublicID.
  - reflexivity.
  - reflexivity.
  - reflexivity.
  - reflexivity.
  - reflexivity.
  - reflexivity.
Defined.

(** Scenario A of the specification against the store: after the claim
    the store holds [deadbeef] under [abc123], owned by the requester
    (C6). *)
Lemma C6_stored_record :
  exists metadata,
    snd (Sample.claim kv.store "deadbeef" "abc123" 123456789%N ∅) !! "abc123"
      = Some ("deadbeef", metadata)
    /\ kv.decodeMetadata metadata = Ok {| Result_ID := 123456789%N |}.
Proof.
  apply (proj2 (C6_write_body Sample.token Sample.noUnicode Sample.parses Sample.boundary
                  kv.store ∅ ∅ (Sample.command "deadbeef" "abc123" 123456789%N))).
  vm_compute. reflexivity.
Defined.

(** An upper-case public id is rejected before anything else happens
    (C7). *)
Lemma C7_upper_case_rejected :
  Sample.claim kv.store "DEADBEEF" "abc123" 123456789%N ∅ = ([invalidUserIDReply], ∅)
  /\ steps (fst (Sample.claim kv.store "DEADBEEF" "abc123" 123456789%N ∅)) = [].
Proof.
  apply (proj2 (C7_public_id_validation Sample.token Sample.noUnicode Sample.parses
                  Sample.boundary kv.store ∅
                  (Sample.command "DEADBEEF" "abc123" 123456789%N))).
  intros Hid. apply MatchString_publicID in Hid. discriminate Hid.
Defined.

(** A run that took a step had valid inputs (C8). *)
Lemma C8_steps_need_valid_inputs :
  isPublicID "deadbeef" /\ go_regexp.MatchString vanityRegex "abc123" = true.
Proof.
  apply (proj1 (proj2 (C8_step_order Sample.token Sample.noUnicode Sample.parses
                         Sample.boundary kv.store ∅
                         (Sample.command "deadbeef" "ABC123" 123456789%N)))).
  intros Hsteps. discriminate Hsteps.
Defined.

(** The same user claims the same alias with another public id: the run is
    the same up to the write (C9). *)
Lemma C9_other_public_id_same_decision :
  decision (fst (run kv.store
                   (Sample.handler
                      (withOption (Sample.command "deadbeef" "abc123" 123456789%N)
                                  "sb_user_id" "cafe")) ∅))
  = decision (fst (Sample.claim kv.store "deadbeef" "abc123" 123456789%N ∅))
  /\ branch (fst (run kv.store
                    (Sample.handler
                       (withOption (Sample.command "deadbeef" "abc123" 123456789%N)
                                   "sb_user_id" "cafe")) ∅))
     = branch (fst (Sample.claim kv.store "deadbeef" "abc123" 123456789%N ∅)).
Proof.
  apply (C9_public_id_does_not_decide Sample.token Sample.noUnicode Sample.parses
           Sample.boundary kv.store ∅ (Sample.command "deadbeef" "abc123" 123456789%N) "cafe").
  - exact deadbeef_isPublicID.
  - exact cafe_isPublicID.
Defined.


(** ** The further properties on concrete invocations *)

(** [AbC123] typed by the user: both requests address [abc123] (X4). *)
Lemma X4_mixed_case_key :
  Forall (fun r =>
            exists key,
              http.URL r = (if isPut r then valuesApiURL else metadataApiURL) ++ key
              /\ key <> ""
              /\ Forall (fun c => In c lowerAlphanumerics) (list_ascii_of_string key))
         (requests (fst (Sample.claim kv.store "deadbeef" "AbC123" 123456789%N ∅))).
Proof.
  apply (X4_key_alphabet Sample.token Sample.noUnicode Sample.parses Sample.boundary
           kv.store ∅ (Sample.command "deadbeef" "AbC123" 123456789%N)).
  reflexivity.
Defined.

(** An alias in upper case is acknowledged (X5). *)
Lemma X5_upper_case_alias_accepted :
  hd_error (fst (Sample.claim kv.store "deadbeef" "ABC123" 123456789%N ∅))
  = Some acknowledgment.
Proof.
  apply (proj1 (X5_alias_as_typed Sample.token Sample.noUnicode Sample.parses
                  Sample.boundary kv.store ∅
                  (Sample.command "deadbeef" "ABC123" 123456789%N)
                  deadbeef_isPublicID eq_refl)).
  exact (proj1 (MatchString_vanity "ABC123") eq_refl).
Defined.

(** The read for [abc] and the write for [abd] go to different URLs (X6). *)
Lemma X6_abc_and_abd :
  String.eqb (http.URL (metaRequest Sample.token "abc"))
             (http.URL (valueRequest Sample.token Sample.boundary "cafe" "abd" 2%N))
  = false.
Proof.
  apply String.eqb_neq.
  apply (X6_distinct_aliases_distinct_urls Sample.token Sample.noUnicode Sample.parses
           Sample.boundary kv.store kv.store ∅ ∅
           (Sample.command "deadbeef" "abc" 1%N) (Sample.command "cafe" "abd" 2%N)).
  - vm_compute. intros Heq. discriminate Heq.
  - vm_compute. left. reflexivity.
  - vm_compute. right. left. reflexivity.
Defined.

(** A claim of [abc123] leaves the record under [other] alone (X7). *)
Lemma X7_other_record_kept :
  snd (Sample.claim kv.store "deadbeef" "abc123" 123456789%N
                    {["other" := ("cafe", ownerMetadata 7%N)]}) !! "other"
  = Some ("cafe", ownerMetadata 7%N).
Proof.
  etransitivity.
  - apply (X7_store_frame Sample.token Sample.noUnicode Sample.parses Sample.boundary
             {["other" := ("cafe", ownerMetadata 7%N)]}
             (Sample.command "deadbeef" "abc123" 123456789%N) "other").
    vm_compute. intros Heq. discriminate Heq.
  - reflexivity.
Defined.

(** [taken1] belongs to 999: a claim by 123456789, typed [Taken1], changes
    nothing (X8). *)
Lemma X8_taken1_kept :
  snd (Sample.claim kv.store "deadbeef" "Taken1" 123456789%N
                    {["taken1" := ("cafe", ownerMetadata 999%N)]})
  = {["taken1" := ("cafe", ownerMetadata 999%N)]}
  /\ writes (fst (Sample.claim kv.store "deadbeef" "Taken1" 123456789%N
                               {["taken1" := ("cafe", ownerMetadata 999%N)]})) = [].
Proof.
  apply (X8_owned_alias_protected Sample.token Sample.noUnicode Sample.parses Sample.boundary
           {["taken1" := ("cafe", ownerMetadata 999%N)]}
           (Sample.command "deadbeef" "Taken1" 123456789%N)
           "cafe" 999%N).
  - reflexivity.
  - intros Heq. discriminate Heq.
Defined.

(** Scenario A of the specification against the empty store (X9). *)
Lemma X9_abc123_claimed :
  Sample.claim kv.store "deadbeef" "abc123" 123456789%N ∅
  = ([acknowledgment;
      EvDo (metaRequest Sample.token "abc123") (Ok kv.notFound);
      EvDo (valueRequest Sample.token Sample.boundary "deadbeef" "abc123" 123456789%N)
           (Ok {| StatusCode := 200; Body_Decode := Err "EOF" |});
      followup (successMessage "abc123" "deadbeef")],
     {["abc123" := ("deadbeef", ownerMetadata 123456789%N)]}).
Proof.
  apply (X9_free_alias_claimed Sample.token Sample.noUnicode Sample.parses Sample.boundary
           ∅ (Sample.command "deadbeef" "abc123" 123456789%N)).
  - exact deadbeef_isPublicID.
  - reflexivity.
  - reflexivity.
  - reflexivity.
  - reflexivity.
Defined.

(** Account 1 claims [abc123]; account 2 then asks for [ABC123] (X10). *)
Lemma X10_second_account_refused :
  run kv.store (Sample.handler (Sample.command "cafe" "ABC123" 2%N))
      (snd (Sample.claim kv.store "deadbeef" "abc123" 1%N ∅))
  = ([acknowledgment;
      EvDo (metaRequest Sample.token "abc123")
           (Ok {| StatusCode := 200; Body_Decode := Ok {| Result_ID := 1%N |} |});
      followup (takenMessage 1%N)],
     snd (Sample.claim kv.store "deadbeef" "abc123" 1%N ∅))
  /\ snd (Sample.claim kv.store "deadbeef" "abc123" 1%N ∅) !! "abc123"
     = Some ("deadbeef", ownerMetadata 1%N).
Proof.
  apply (X10_first_claim_wins Sample.token Sample.noUnicode Sample.parses Sample.boundary
           ∅ (Sample.command "deadbeef" "abc123" 1%N) (Sample.command "cafe" "ABC123" 2%N)).
  - reflexivity.
  - exact cafe_isPublicID.
  - reflexivity.
  - intros Heq. discriminate Heq.
Defined.

(** Account 2's read saw an empty store; by the time its write lands,
    account 1 holds [abc123]: the record is replaced (X12). *)
Lemma X12_record_replaced :
  snd (run kv.lagging (Sample.handler (Sample.command "cafe" "abc123" 2%N))
           (∅, {["abc123" := ("deadbeef", ownerMetadata 1%N)]}))
  = (∅, <["abc123" := ("cafe", ownerMetadata 2%N)]>
          {["abc123" := ("deadbeef", ownerMetadata 1%N)]})
  /\ followups (fst (run kv.lagging (Sample.handler (Sample.command "cafe" "abc123" 2%N))
                         (∅, {["abc123" := ("deadbeef", ownerMetadata 1%N)]})))
     = [successMessage "abc123" "cafe"].
Proof.
  apply (X12_stale_read_overwrites Sample.token Sample.noUnicode Sample.parses
           Sample.boundary ∅ {["abc123" := ("deadbeef", ownerMetadata 1%N)]}
           (Sample.command "cafe" "abc123" 2%N)).
  - exact cafe_isPublicID.
  - reflexivity.
  - reflexivity.
  - reflexivity.
  - reflexivity.
Defined.

(** Claims of [abc] and [xyz] in either order (X13). *)
Lemma X13_abc_then_xyz :
  snd (run kv.store (Sample.handler (Sample.command "cafe" "xyz" 2%N))
           (snd (Sample.claim kv.store "deadbeef" "abc" 1%N ∅)))
  = snd (run kv.store (Sample.handler (Sample.command "deadbeef" "abc" 1%N))
             (snd (Sample.claim kv.store "cafe" "xyz" 2%N ∅)))
  /\ fst (run kv.store (Sample.handler (Sample.command "cafe" "xyz" 2%N))
              (snd (Sample.claim kv.store "deadbeef" "abc" 1%N ∅)))
     = fst (Sample.claim kv.store "cafe" "xyz" 2%N ∅).
Proof.
  apply (X13_different_aliases_commute Sample.token Sample.noUnicode Sample.parses
           Sample.boundary ∅
           (Sample.command "deadbeef" "abc" 1%N) (Sample.command "cafe" "xyz" 2%N)).
  vm_compute. intros Heq. discriminate Heq.
Defined.

(** A command with no options at all (X14). *)
Lemma X14_no_options :
  run kv.store (Sample.handler {| Options := ∅; User_ID := 1%N |}) ∅
  = ([invalidUserIDReply], ∅).
Proof.
  apply (proj1 (X14_missing_option_rejected Sample.token Sample.noUnicode Sample.parses
                  Sample.boundary kv.store ∅ {| Options := ∅; User_ID := 1%N |})).
  reflexivity.
Defined.
